(** * The dmsql dialect of gorm (dialect_dmsql.go), embedded in Rocq

    Go strings are byte sequences: they are modelled as [string], whose
    characters are the 256 byte values.  Go's [int] and [int64] values are
    modelled as [Z]; the dialect only compares and prints them.  The tag
    settings of a field are a [gmap string string].  A method that mutates
    the field it receives by pointer returns the field after the call next
    to its result, and a Go panic is an outcome of its own. *)

From Stdlib Require Import ZArith Ascii String List Lia.
From stdpp Require Import base option gmap strings.

Local Open Scope Z_scope.

(* [simpl] computes the concatenation of strings. *)
#[local] Arguments String.append !s1 s2 : simpl nomatch.

(** ** Outcomes of a call that may panic *)

Inductive outcome (A : Type) : Type :=
| Returned (a : A)
| Panicked (msg : string).
Arguments Returned {A} a.
Arguments Panicked {A} msg.

(** ** Formatting verbs of package fmt *)

Module fmt.

Definition digit (n : N) : ascii := ascii_of_N (48 + n).

(** Decimal digits of [n], most significant first, in front of [acc]. *)
Fixpoint digits (fuel : nat) (n : N) (acc : string) : string :=
  match fuel with
  | O => acc
  | S fuel' =>
      let acc' := String (digit (n mod 10)) acc in
      if (n / 10 =? 0)%N then acc' else digits fuel' (n / 10)%N acc'
  end.

Definition utoa (n : N) : string := digits (S (N.size_nat n)) n "".

(** The verb %d on an integer. *)
Definition itoa (z : Z) : string :=
  match z with
  | Z0 => "0"
  | Zpos p => utoa (Npos p)
  | Zneg p => String "-" (utoa (Npos p))
  end.

Definition hexdigit (n : N) : ascii :=
  if (n <? 10)%N then ascii_of_N (48 + n) else ascii_of_N (87 + n).

(** The verb %x on a byte slice: two lower-case digits per byte. *)
Fixpoint hex (bs : list Z) : string :=
  match bs with
  | [] => ""
  | b :: bs' =>
      String (hexdigit (Z.to_N (b / 16))) (String (hexdigit (Z.to_N (b mod 16))) (hex bs'))
  end.

End fmt.

(** ** The part of package reflect the dialect observes *)

Module reflect.

Inductive Kind : Set :=
| Bool | Int | Int8 | Int16 | Int32 | Int64
| Uint | Uint8 | Uint16 | Uint32 | Uint64 | Uintptr
| Float32 | Float64 | Complex64 | Complex128
| Array | Chan | Func | Interface | Map | Pointer | Slice
| String | Struct | UnsafePointer.

(** Kind.String() *)
Definition Kind_String (k : Kind) : string :=
  match k with
  | Bool => "bool" | Int => "int" | Int8 => "int8" | Int16 => "int16"
  | Int32 => "int32" | Int64 => "int64"
  | Uint => "uint" | Uint8 => "uint8" | Uint16 => "uint16"
  | Uint32 => "uint32" | Uint64 => "uint64" | Uintptr => "uintptr"
  | Float32 => "float32" | Float64 => "float64"
  | Complex64 => "complex64" | Complex128 => "complex128"
  | Array => "array" | Chan => "chan" | Func => "func"
  | Interface => "interface" | Map => "map" | Pointer => "ptr"
  | Slice => "slice" | String => "string" | Struct => "struct"
  | UnsafePointer => "unsafe.Pointer"
  end.

(** What the dialect reads from the [reflect.Value] of a field: its kind,
    the name of its type, whether its dynamic type is time.Time (the type
    assertion of DataTypeOf) and whether its element type is uint8.  The
    value is built by [reflect.New], so its kind is never Invalid. *)
Record Value : Set := mkValue {
  Value_Kind : Kind;
  Type_Name : string;
  isTime : bool;
  elemIsUint8 : bool
}.

End reflect.

(** ** The field descriptor *)

(** Modelled from the spec: the type StructField and its methods
    TagSettingsGet, TagSettingsSet and TagSettingsDelete are declared
    outside dialect_dmsql.go.  A field has a name, a primary-key flag, a
    mapping of tag settings to string values and its Go type; the dialect
    reads them and adds or removes the AUTO_INCREMENT setting. *)
Record StructField : Type := mkStructField {
  Name : string;
  IsPrimaryKey : bool;
  TagSettings : gmap string string;
  Struct : reflect.Value
}.

Definition TagSettingsGet (field : StructField) (key : string) : option string :=
  TagSettings field !! key.

Definition TagSettingsSet (field : StructField) (key value : string) : StructField :=
  {| Name := Name field; IsPrimaryKey := IsPrimaryKey field;
     TagSettings := <[key := value]> (TagSettings field); Struct := Struct field |}.

Definition TagSettingsDelete (field : StructField) (key : string) : StructField :=
  {| Name := Name field; IsPrimaryKey := IsPrimaryKey field;
     TagSettings := delete key (TagSettings field); Struct := Struct field |}.

(** Modelled from the spec: IsByteArrayOrSlice is declared outside
    dialect_dmsql.go; a byte sequence is an array or a variable-length
    sequence whose elements are bytes. *)
Definition IsByteArrayOrSlice (value : reflect.Value) : bool :=
  match reflect.Value_Kind value with
  | reflect.Array | reflect.Slice => reflect.elemIsUint8 value
  | _ => false
  end.

(** ** UTF-8, as packages unicode/utf8, unicode and strings read it *)

Module utf8.

Definition byte (c : ascii) : Z := Z.of_N (N_of_ascii c).
Definition chr (z : Z) : ascii := ascii_of_N (Z.to_N z).

Definition RuneError : Z := 0xFFFD.
Definition MaxRune : Z := 0x10FFFF.

(** The table [first] of the package: what a leading byte announces. *)
Inductive lead : Set :=
| ascii1                      (* a one-byte rune *)
| invalid                     (* not a leading byte *)
| multi (size : nat) (lo hi : Z). (* size and accepted range of the second byte *)

Definition first (b : Z) : lead :=
  if b <? 0x80 then ascii1
  else if b <? 0xC2 then invalid
  else if b <? 0xE0 then multi 2 0x80 0xBF
  else if b =? 0xE0 then multi 3 0xA0 0xBF
  else if b <? 0xED then multi 3 0x80 0xBF
  else if b =? 0xED then multi 3 0x80 0x9F
  else if b <? 0xF0 then multi 3 0x80 0xBF
  else if b =? 0xF0 then multi 4 0x90 0xBF
  else if b <? 0xF4 then multi 4 0x80 0xBF
  else if b =? 0xF4 then multi 4 0x80 0x8F
  else invalid.

Definition within (lo hi b : Z) : bool := (lo <=? b) && (b <=? hi).
Definition cont (b : Z) : bool := within 0x80 0xBF b.

Definition rune2 (b0 b1 : Z) : Z :=
  Z.lor (Z.shiftl (Z.land b0 0x1F) 6) (Z.land b1 0x3F).
Definition rune3 (b0 b1 b2 : Z) : Z :=
  Z.lor (Z.lor (Z.shiftl (Z.land b0 0x0F) 12) (Z.shiftl (Z.land b1 0x3F) 6))
        (Z.land b2 0x3F).
Definition rune4 (b0 b1 b2 b3 : Z) : Z :=
  Z.lor (Z.lor (Z.lor (Z.shiftl (Z.land b0 0x07) 18) (Z.shiftl (Z.land b1 0x3F) 12))
               (Z.shiftl (Z.land b2 0x3F) 6))
        (Z.land b3 0x3F).

Definition one (c : ascii) : string := String c "".

(** The string cut into runes, each with the bytes it was decoded from
    (DecodeRuneInString applied until the string is used up).  A byte
    that starts no well-formed encoding is the rune RuneError of width 1. *)
Fixpoint chunks (s : string) : list (Z * string) :=
  match s with
  | EmptyString => []
  | String c0 s1 =>
      let bad (_ : unit) := (RuneError, one c0) :: chunks s1 in
      match first (byte c0) with
      | ascii1 => (byte c0, one c0) :: chunks s1
      | invalid => bad tt
      | multi size lo hi =>
          match s1 with
          | EmptyString => bad tt
          | String c1 s2 =>
              if negb (within lo hi (byte c1)) then bad tt
              else if (size <=? 2)%nat then
                (rune2 (byte c0) (byte c1), String c0 (one c1)) :: chunks s2
              else
                match s2 with
                | EmptyString => bad tt
                | String c2 s3 =>
                    if negb (cont (byte c2)) then bad tt
                    else if (size <=? 3)%nat then
                      (rune3 (byte c0) (byte c1) (byte c2),
                       String c0 (String c1 (one c2))) :: chunks s3
                    else
                      match s3 with
                      | EmptyString => bad tt
                      | String c3 s4 =>
                          if negb (cont (byte c3)) then bad tt
                          else
                            (rune4 (byte c0) (byte c1) (byte c2) (byte c3),
                             String c0 (String c1 (String c2 (one c3)))) :: chunks s4
                      end
                end
          end
      end
  end.

(** The conversion []rune(s). *)
Definition runes (s : string) : list Z := map fst (chunks s).

Definition RuneCountInString (s : string) : Z := Z.of_nat (length (runes s)).

(** EncodeRune: a rune that is no Unicode scalar value is written as
    RuneError. *)
Definition enc3 (r : Z) : string :=
  String (chr (Z.lor 0xE0 (Z.shiftr r 12)))
    (String (chr (Z.lor 0x80 (Z.land (Z.shiftr r 6) 0x3F)))
       (one (chr (Z.lor 0x80 (Z.land r 0x3F))))).

Definition EncodeRune (r : Z) : string :=
  if (0 <=? r) && (r <=? 0x7F) then one (chr r)
  else if (0 <=? r) && (r <=? 0x7FF) then
    String (chr (Z.lor 0xC0 (Z.shiftr r 6))) (one (chr (Z.lor 0x80 (Z.land r 0x3F))))
  else if (r <? 0) || (MaxRune <? r) || ((0xD800 <=? r) && (r <=? 0xDFFF)) then
    enc3 RuneError
  else if r <=? 0xFFFF then enc3 r
  else
    String (chr (Z.lor 0xF0 (Z.shiftr r 18)))
      (String (chr (Z.lor 0x80 (Z.land (Z.shiftr r 12) 0x3F)))
         (String (chr (Z.lor 0x80 (Z.land (Z.shiftr r 6) 0x3F)))
            (one (chr (Z.lor 0x80 (Z.land r 0x3F)))))).

(** The conversion string(rs) of a rune slice. *)
Fixpoint of_runes (rs : list Z) : string :=
  match rs with
  | [] => ""
  | r :: rs' => EncodeRune r +:+ of_runes rs'
  end.

End utf8.

Module unicode.

(** IsSpace: the white space property of Unicode. *)
Definition IsSpace (r : Z) : bool :=
  (utf8.within 0x09 0x0D r) || (r =? 0x20) || (r =? 0x85) || (r =? 0xA0)
  || (r =? 0x1680) || (utf8.within 0x2000 0x200A r)
  || (r =? 0x2028) || (r =? 0x2029) || (r =? 0x202F) || (r =? 0x205F)
  || (r =? 0x3000).

End unicode.

Module strings.

Definition isSpaceChunk (c : Z * string) : bool := unicode.IsSpace (fst c).

Fixpoint dropWhile {A} (p : A -> bool) (l : list A) : list A :=
  match l with
  | [] => []
  | x :: l' => if p x then dropWhile p l' else l
  end.

Fixpoint join (l : list (Z * string)) : string :=
  match l with
  | [] => ""
  | c :: l' => snd c +:+ join l'
  end.

(** TrimSpace: the string without its leading and trailing white space. *)
Definition TrimSpace (s : string) : string :=
  join (rev (dropWhile isSpaceChunk (rev (dropWhile isSpaceChunk (utf8.chunks s))))).

(** Contains: [substr] occurs in [s]. *)
Fixpoint Contains (s substr : string) : bool :=
  String.prefix substr s
  || match s with
     | EmptyString => false
     | String _ s' => Contains s' substr
     end.

(** HasSuffix: [s] ends with [suffix]. *)
Definition HasSuffix (s suffix : string) : bool :=
  String.prefix (string_of_list_ascii (rev (list_ascii_of_string suffix)))
                (string_of_list_ascii (rev (list_ascii_of_string s))).

End strings.

(** ** SHA-1, as package crypto/sha1 computes it *)

Module sha1.

Definition mask32 (x : Z) : Z := Z.land x 0xFFFFFFFF.
Definition rotl (n x : Z) : Z :=
  mask32 (Z.lor (Z.shiftl x n) (Z.shiftr x (32 - n))).
Definition add32 (x y : Z) : Z := mask32 (x + y).

(** Big-endian bytes of a word. *)
Definition be_bytes (n : nat) (x : Z) : list Z :=
  map (fun i => Z.land (Z.shiftr x (8 * Z.of_nat i)) 0xFF) (rev (seq 0 n)).

Fixpoint be_word (bs : list Z) (acc : Z) : Z :=
  match bs with
  | [] => acc
  | b :: bs' => be_word bs' (Z.lor (Z.shiftl acc 8) b)
  end.

Definition padding (len : nat) : list Z :=
  let r := (len mod 64)%nat in
  let zeros := if (r <? 56)%nat then (55 - r)%nat else (119 - r)%nat in
  0x80 :: repeat 0 zeros ++ be_bytes 8 (8 * Z.of_nat len).

Fixpoint words (n : nat) (bs : list Z) : list Z :=
  match n with
  | O => []
  | S n' => be_word (firstn 4 bs) 0 :: words n' (skipn 4 bs)
  end.

(** The message schedule, latest word first. *)
Fixpoint schedule (n : nat) (w : list Z) : list Z :=
  match n with
  | O => w
  | S n' =>
      let x := Z.lxor (Z.lxor (nth 2 w 0) (nth 7 w 0)) (Z.lxor (nth 13 w 0) (nth 15 w 0)) in
      schedule n' (rotl 1 x :: w)
  end.

Definition state : Set := (Z * Z * Z * Z * Z)%type.

Definition round (i : nat) (st : state) (wi : Z) : state :=
  let '(a, b, c, d, e) := st in
  let '(f, k) :=
    if (i <? 20)%nat then (Z.lor (Z.land b c) (Z.land (Z.lxor b 0xFFFFFFFF) d), 0x5A827999)
    else if (i <? 40)%nat then (Z.lxor (Z.lxor b c) d, 0x6ED9EBA1)
    else if (i <? 60)%nat then
      (Z.lor (Z.lor (Z.land b c) (Z.land b d)) (Z.land c d), 0x8F1BBCDC)
    else (Z.lxor (Z.lxor b c) d, 0xCA62C1D6) in
  let t := add32 (add32 (add32 (add32 (rotl 5 a) f) e) wi) k in
  (t, a, rotl 30 b, c, d).

Fixpoint rounds (i : nat) (ws : list Z) (st : state) : state :=
  match ws with
  | [] => st
  | wi :: ws' => rounds (S i) ws' (round i st wi)
  end.

Definition block (st : state) (bs : list Z) : state :=
  let w := rev (schedule 64 (rev (words 16 bs))) in
  let '(h0, h1, h2, h3, h4) := st in
  let '(a, b, c, d, e) := rounds 0 w st in
  (add32 h0 a, add32 h1 b, add32 h2 c, add32 h3 d, add32 h4 e).

Fixpoint blocks (n : nat) (st : state) (bs : list Z) : state :=
  match n with
  | O => st
  | S n' => blocks n' (block st (firstn 64 bs)) (skipn 64 bs)
  end.

Definition init : state :=
  (0x67452301, 0xEFCDAB89, 0x98BADCFE, 0x10325476, 0xC3D2E1F0).

(** The digest of a message: h := sha1.New(); h.Write(msg); h.Sum(nil). *)
Definition Sum (msg : list Z) : list Z :=
  let padded := msg ++ padding (length msg) in
  let '(h0, h1, h2, h3, h4) := blocks (length padded / 64) init padded in
  be_bytes 4 h0 ++ be_bytes 4 h1 ++ be_bytes 4 h2 ++ be_bytes 4 h3 ++ be_bytes 4 h4.

End sha1.

(** The conversion []byte(s). *)
Definition bytes_of (s : string) : list Z := map utf8.byte (list_ascii_of_string s).

(** ** The index pattern *)

Module regexp.

Definition newline : ascii := ascii_of_N 10.

(** The class \d: an ASCII decimal digit. *)
Definition isDigit (c : ascii) : bool := (48 <=? utf8.byte c) && (utf8.byte c <=? 57).

(** The class of the dot: anything but a line feed. *)
Definition isDot (c : ascii) : bool := negb (Ascii.eqb c newline).

Fixpoint span (p : ascii -> bool) (l : list ascii) : list ascii * list ascii :=
  match l with
  | c :: l' => if p c then let '(a, b) := span p l' in (c :: a, b) else ([], l)
  | [] => ([], [])
  end.

Definition isEmpty {A} (l : list A) : bool := match l with [] => true | _ => false end.

(** The expressions the dialect is written with. *)
Inductive re : Type :=
| Class (p : ascii -> bool)   (* one character of a class *)
| Cat (r1 r2 : re)
| Plus (r : re)               (* r+ *)
| Group (r : re)              (* (r) *)
| Bol                         (* ^ *)
| Eol.                        (* $ *)

(** [Matches r before s after groups]: in the text [before +:+ s +:+ after]
    the expression [r] matches [s], its groups capturing [groups], in the
    order of their opening parentheses. *)
Inductive Matches : re -> string -> string -> string -> list string -> Prop :=
| MClass p c before after :
    p c = true -> Matches (Class p) before (String c "") after []
| MCat r1 r2 before s1 s2 after g1 g2 :
    Matches r1 before s1 (s2 +:+ after) g1 ->
    Matches r2 (before +:+ s1) s2 after g2 ->
    Matches (Cat r1 r2) before (s1 +:+ s2) after (g1 ++ g2)
| MPlusOne r before s after g :
    Matches r before s after g -> Matches (Plus r) before s after g
| MPlusMore r before s1 s2 after g1 g2 :
    Matches r before s1 (s2 +:+ after) g1 ->
    Matches (Plus r) (before +:+ s1) s2 after g2 ->
    Matches (Plus r) before (s1 +:+ s2) after g2
| MGroup r before s after g :
    Matches r before s after g -> Matches (Group r) before s after (s :: g)
| MBol after : Matches Bol "" "" after []
| MEol before : Matches Eol before "" "" [].

End regexp.

(** dmsqlIndexRegex, the expression ^(.+)\((\d+)\)$.  The dot stands for
    one rune other than the line feed; the line feed is one byte and part
    of no other rune, so that a run of such runes is a run of bytes other
    than the line feed. *)
Definition dmsqlIndexRegex : regexp.re :=
  regexp.Cat regexp.Bol
    (regexp.Cat (regexp.Group (regexp.Plus (regexp.Class regexp.isDot)))
       (regexp.Cat (regexp.Class (Ascii.eqb "("))
          (regexp.Cat (regexp.Group (regexp.Plus (regexp.Class regexp.isDigit)))
             (regexp.Cat (regexp.Class (Ascii.eqb ")")) regexp.Eol)))).

(** dmsqlIndexRegex.FindStringSubmatch: the whole match and the two
    groups, or nil.  The expression is anchored at both ends, and its match
    is found from the end of the text: the closing parenthesis, the digits
    before it, the opening parenthesis before them, and a prefix of at
    least one character, none a line feed. *)
Definition dmsqlIndexRegex_FindStringSubmatch (s : string) : list string :=
  match rev (list_ascii_of_string s) with
  | c :: r =>
      if Ascii.eqb c ")" then
        let '(ds, r') := regexp.span regexp.isDigit r in
        match r' with
        | o :: pre =>
            if Ascii.eqb o "(" && negb (regexp.isEmpty ds) && negb (regexp.isEmpty pre)
               && forallb regexp.isDot pre
            then [s; string_of_list_ascii (rev pre); string_of_list_ascii (rev ds)]
            else []
        | [] => []
        end
      else []
  | [] => []
  end.

(** ** What the dialect takes from the rest of the package *)

Definition error : Set := string.

(** A non-nil value of type interface{}; the nil interface is [None]. *)
Inductive any : Set :=
| AnyInt (i : Z)
| AnyString (s : string)
| AnyBool (b : bool).

(** Modelled from the spec: the base dialect (commonDialect) and the
    helpers of the package are declared outside dialect_dmsql.go, and the
    spec names them by their role only: field-struct parsing (the runtime
    value of the field, an explicit SQL type, the declared size and the
    additional type modifiers), the auto-increment eligibility rule, the
    integer parsing of LIMIT and OFFSET, the generic key-name rule, the
    replacement of the characters a key name may not contain, and the
    resolution of a table name into a namespace and a name.  They are the
    operations of an interface, none of which changes the field. *)
Class Host : Type := {
  ParseFieldStructForDialect : StructField -> reflect.Value * string * Z * string;
  fieldCanAutoIncrement : StructField -> bool;
  parseInt : any -> Z + error;
  commonDialect_BuildKeyName : string -> string -> list string -> string;
  keyNameRegex_ReplaceAllString : string -> string -> string;
  currentDatabaseAndTable : string -> string -> string * string
}.

(** The data-access handle [d.db]: a query for one integer column either
    yields a row holding it or fails when it is run or scanned; a
    statement is executed and may fail. *)
Inductive Row : Set :=
| RowOf (n : Z)
| RowErr (e : error).

Record SQLCommon : Type := {
  QueryRow : string -> list string -> Row;
  Exec : string -> option error
}.

(** Row.Scan(&count): the destination is written on success only. *)
Definition Scan (r : Row) (count : Z) : Z * option error :=
  match r with
  | RowOf n => (n, None)
  | RowErr e => (count, Some e)
  end.

(** ** The dialect *)

Section dmsql.

Context `{Host}.

Definition GetName : string := "dmsql".

Definition Quote (key : string) : string := "`" +:+ key +:+ "`".

(** Lines 36-40 of DataTypeOf: only a KEY column keeps AUTO_INCREMENT. *)
Definition keepAutoIncrementOnKey (field : StructField) : StructField :=
  match TagSettingsGet field "AUTO_INCREMENT" with
  | Some _ =>
      match TagSettingsGet field "INDEX" with
      | Some _ => field
      | None =>
          if negb (IsPrimaryKey field) then TagSettingsDelete field "AUTO_INCREMENT"
          else field
      end
  | None => field
  end.

(** Lines 43-117 of DataTypeOf: the switch on the kind of the value. *)
Definition inferType (dataValue : reflect.Value) (size : Z) (field : StructField)
  : string * StructField :=
  match reflect.Value_Kind dataValue with
  | reflect.Bool => ("bit", field)
  | reflect.Int8 =>
      if fieldCanAutoIncrement field then
        ("tinyint AUTO_INCREMENT", TagSettingsSet field "AUTO_INCREMENT" "AUTO_INCREMENT")
      else ("tinyint", field)
  | reflect.Int | reflect.Int16 | reflect.Int32 =>
      if fieldCanAutoIncrement field then
        ("int AUTO_INCREMENT", TagSettingsSet field "AUTO_INCREMENT" "AUTO_INCREMENT")
      else ("int", field)
  | reflect.Uint8 =>
      if fieldCanAutoIncrement field then
        ("tinyint unsigned AUTO_INCREMENT",
         TagSettingsSet field "AUTO_INCREMENT" "AUTO_INCREMENT")
      else ("tinyint unsigned", field)
  | reflect.Uint | reflect.Uint16 | reflect.Uint32 | reflect.Uintptr =>
      if fieldCanAutoIncrement field then
        ("int unsigned AUTO_INCREMENT",
         TagSettingsSet field "AUTO_INCREMENT" "AUTO_INCREMENT")
      else ("int unsigned", field)
  | reflect.Int64 =>
      if fieldCanAutoIncrement field then
        ("bigint AUTO_INCREMENT", TagSettingsSet field "AUTO_INCREMENT" "AUTO_INCREMENT")
      else ("bigint", field)
  | reflect.Uint64 =>
      if fieldCanAutoIncrement field then
        ("bigint unsigned AUTO_INCREMENT",
         TagSettingsSet field "AUTO_INCREMENT" "AUTO_INCREMENT")
      else ("bigint unsigned", field)
  | reflect.Float32 | reflect.Float64 => ("double", field)
  | reflect.String =>
      if (0 <? size) && (size <? 65532) then ("varchar(" +:+ fmt.itoa size +:+ ")", field)
      else ("longtext", field)
  | reflect.Struct =>
      if reflect.isTime dataValue then
        let precision :=
          match TagSettingsGet field "PRECISION" with
          | Some p => "(" +:+ p +:+ ")"
          | None => ""
          end in
        if bool_decide (is_Some (TagSettings field !! "NOT NULL")) || IsPrimaryKey field
        then ("DATETIME" +:+ precision, field)
        else ("DATETIME" +:+ precision +:+ " NULL", field)
      else ("", field)
  | _ =>
      if IsByteArrayOrSlice dataValue then
        if (0 <? size) && (size <? 65532) then
          ("varbinary(" +:+ fmt.itoa size +:+ ")", field)
        else ("longblob", field)
      else ("", field)
  end.

Definition invalidSqlType (dataValue : reflect.Value) (field : StructField) : string :=
  "invalid sql type " +:+ reflect.Type_Name dataValue +:+ " ("
    +:+ reflect.Kind_String (reflect.Value_Kind dataValue) +:+ ") in field "
    +:+ Name field +:+ " for dmsql".

(** DataTypeOf: the outcome of the call and the field after it. *)
Definition DataTypeOf (field : StructField) : outcome string * StructField :=
  let '(dataValue, sqlType, size, additionalType) := ParseFieldStructForDialect field in
  let field := keepAutoIncrementOnKey field in
  let '(sqlType, field) :=
    if String.eqb sqlType "" then inferType dataValue size field
    else (sqlType, field) in
  if String.eqb sqlType "" then (Panicked (invalidSqlType dataValue field), field)
  else if String.eqb (strings.TrimSpace additionalType) "" then (Returned sqlType, field)
  else (Returned (sqlType +:+ " " +:+ additionalType), field).

Definition RemoveIndex (db : SQLCommon) (tableName indexName : string) : option error :=
  Exec db ("DROP INDEX " +:+ indexName +:+ " ON " +:+ Quote tableName).

Definition ModifyColumn (db : SQLCommon) (tableName columnName typ : string)
  : option error :=
  Exec db ("ALTER TABLE " +:+ tableName +:+ " MODIFY COLUMN " +:+ columnName
             +:+ " " +:+ typ).

(** LimitAndOffsetSQL: the fragment and the error (nil is [None]). *)
Definition LimitAndOffsetSQL (limit offset : option any) : string * option error :=
  let sql := "" in
  match limit with
  | Some limit =>
      match parseInt limit with
      | inr err => ("", Some err)
      | inl parsedLimit =>
          if 0 <=? parsedLimit then
            let sql := sql +:+ " LIMIT " +:+ fmt.itoa parsedLimit in
            match offset with
            | Some offset =>
                match parseInt offset with
                | inr err => ("", Some err)
                | inl parsedOffset =>
                    if 0 <=? parsedOffset then
                      (sql +:+ " OFFSET " +:+ fmt.itoa parsedOffset, None)
                    else (sql, None)
                end
            | None => (sql, None)
            end
          else (sql, None)
      end
  | None => (sql, None)
  end.

(** CurrentDatabase: the tablespace. *)
Definition CurrentDatabase : string := "blockchain".

(** The catalog queries of the existence checks. *)
Definition foreignKeyQuery : string :=
  "SELECT count(*) FROM USER_CONSTRAINTS WHERE TABLE_NAME=? AND CONSTRAINT_NAME=? AND CONSTRAINT_TYPE='R'".

Definition tableQuery (currentTableSpace tableName : string) : string :=
  "SELECT count(*) FROM USER_TABLES WHERE TABLESPACE = `" +:+ currentTableSpace
    +:+ "` AND TABLE_NAME = `" +:+ tableName +:+ "` ".

Definition indexQuery (currentTableSpace tableName indexName : string) : string :=
  "SELECT count(*) FROM USER_INDEXS WHERE TABLESPACE = `" +:+ currentTableSpace
    +:+ "` AND TABLE_NAME = `" +:+ tableName
    +:+ "` AND INDEX_NAME = `" +:+ indexName +:+ "` ".

Definition columnQuery (tableName columnName : string) : string :=
  "SELECT count(*) FROM USER_TAB_COLUMNS WHERE TABLE_NAME = `" +:+ tableName
    +:+ "` AND COLUMN_NAME =`" +:+ columnName +:+ "` ".

Definition HasForeignKey (db : SQLCommon) (tableName foreignKeyName : string) : bool :=
  let count := 0 in
  let '(_, tableName) := currentDatabaseAndTable CurrentDatabase tableName in
  let '(count, _) :=
    Scan (QueryRow db foreignKeyQuery [tableName; foreignKeyName]) count in
  0 <? count.

Definition HasTable (db : SQLCommon) (tableName : string) : bool :=
  let '(currentTableSpace, tableName) := currentDatabaseAndTable CurrentDatabase tableName in
  let count := 0 in
  let '(count, _) := Scan (QueryRow db (tableQuery currentTableSpace tableName) []) count in
  0 <? count.

Definition HasIndex (db : SQLCommon) (tableName indexName : string) : bool :=
  let '(currentTableSpace, tableName) := currentDatabaseAndTable CurrentDatabase tableName in
  let count := 0 in
  let '(count, _) :=
    Scan (QueryRow db (indexQuery currentTableSpace tableName indexName) []) count in
  0 <? count.

Definition HasColumn (db : SQLCommon) (tableName columnName : string) : bool :=
  let '(_, tableName) := currentDatabaseAndTable CurrentDatabase tableName in
  let count := 0 in
  let '(count, _) := Scan (QueryRow db (columnQuery tableName columnName) []) count in
  0 <? count.

Definition SelectFromDummyTable : string := "FROM DUAL".

(** The run-time panic of an index expression out of range. *)
Definition indexOutOfRange (i len : Z) : string :=
  "runtime error: index out of range [" +:+ fmt.itoa i +:+ "] with length " +:+ fmt.itoa len.

Definition BuildKeyName (kind tableName : string) (fields : list string) : outcome string :=
  let keyName := commonDialect_BuildKeyName kind tableName fields in
  if utf8.RuneCountInString keyName <=? 64 then Returned keyName
  else
    let bs := sha1.Sum (bytes_of keyName) in
    match fields with
    | [] => Panicked (indexOutOfRange 0 0)
    | fields0 :: _ =>
        let destRunes := utf8.runes (keyNameRegex_ReplaceAllString fields0 "_") in
        let destRunes :=
          if (24 <? length destRunes)%nat then firstn 24 destRunes else destRunes in
        Returned (utf8.of_runes destRunes +:+ fmt.hex bs)
    end.

(** NormalizeIndexAndColumn: the index name and the column name, with
    the prefix length of the index moved to the column. *)
Definition NormalizeIndexAndColumn (indexName columnName : string) : string * string :=
  match dmsqlIndexRegex_FindStringSubmatch indexName with
  | [_; submatch1; submatch2] => (submatch1, columnName +:+ "(" +:+ submatch2 +:+ ")")
  | _ => (indexName, columnName)
  end.

Definition DefaultValueStr : string := "VALUES()".

End dmsql.

(** ** A base dialect to run the adapter on *)

Module common.

Definition isAlnum (c : ascii) : bool :=
  let b := utf8.byte c in
  utf8.within 48 57 b || utf8.within 65 90 b || utf8.within 97 122 b.

(** Every run of characters that are no ASCII letter or digit becomes
    [repl]. *)
Fixpoint replaceRuns (repl : string) (inRun : bool) (s : string) : string :=
  match s with
  | EmptyString => ""
  | String c s' =>
      if isAlnum c then String c (replaceRuns repl false s')
      else if inRun then replaceRuns repl true s'
      else repl +:+ replaceRuns repl true s'
  end.

Fixpoint Join (elems : list string) (sep : string) : string :=
  match elems with
  | [] => ""
  | [e] => e
  | e :: elems' => e +:+ sep +:+ Join elems' sep
  end.

Fixpoint digitsValue (s : string) (acc : Z) : option Z :=
  match s with
  | EmptyString => Some acc
  | String c s' =>
      if regexp.isDigit c then digitsValue s' (10 * acc + (utf8.byte c - 48)) else None
  end.

(** A decimal integer with an optional sign. *)
Definition Atoi (s : string) : option Z :=
  match s with
  | EmptyString => None
  | String c s' =>
      if Ascii.eqb c "-" then
        match s' with EmptyString => None | _ => Z.opp <$> digitsValue s' 0 end
      else if Ascii.eqb c "+" then
        match s' with EmptyString => None | _ => digitsValue s' 0 end
      else digitsValue s 0
  end.

Definition setting (field : StructField) (key : string) : string :=
  default "" (TagSettingsGet field key).

Definition ParseFieldStruct (field : StructField) : reflect.Value * string * Z * string :=
  let size :=
    match TagSettingsGet field "SIZE" with
    | Some num => default 0 (Atoi num)
    | None => 255
    end in
  let additionalType := setting field "NOT NULL" +:+ " " +:+ setting field "UNIQUE" in
  let additionalType :=
    match TagSettingsGet field "DEFAULT" with
    | Some value => additionalType +:+ " DEFAULT " +:+ value
    | None => additionalType
    end in
  (Struct field, setting field "TYPE", size, strings.TrimSpace additionalType).

(** The ASCII letters in lower case. *)
Fixpoint ToLower (s : string) : string :=
  match s with
  | EmptyString => ""
  | String c s' =>
      let b := utf8.byte c in
      String (if utf8.within 65 90 b then utf8.chr (b + 32) else c) (ToLower s')
  end.

Definition canAutoIncrement (field : StructField) : bool :=
  match TagSettingsGet field "AUTO_INCREMENT" with
  | Some value => negb (String.eqb (ToLower value) "false")
  | None => IsPrimaryKey field
  end.

Definition parse (value : any) : Z + error :=
  match value with
  | AnyInt i => inl i
  | AnyString s =>
      match Atoi s with
      | Some i => inl i
      | None => inr ("strconv.ParseInt: parsing " +:+ s +:+ ": invalid syntax")
      end
  | AnyBool b =>
      inr ("strconv.ParseInt: parsing " +:+ (if b then "true" else "false")
             +:+ ": invalid syntax")
  end.

Definition KeyName (kind tableName : string) (fields : list string) : string :=
  replaceRuns "_" false (kind +:+ "_" +:+ tableName +:+ "_" +:+ Join fields "_").

Fixpoint cutAt (sep : ascii) (s : string) : option (string * string) :=
  match s with
  | EmptyString => None
  | String c s' =>
      if Ascii.eqb c sep then Some ("", s')
      else match cutAt sep s' with
           | Some (a, b) => Some (String c a, b)
           | None => None
           end
  end.

Definition databaseAndTable (current tableName : string) : string * string :=
  match cutAt "." tableName with
  | Some (db, table) => (db, table)
  | None => (current, tableName)
  end.

End common.

(** Modelled from the spec: a base dialect is not part of
    dialect_dmsql.go.  This one serves to run the adapter on concrete
    inputs: the explicit SQL type is the TYPE setting of the field, its
    declared size the SIZE setting (255 when there is none), its
    additional modifiers the NOT NULL, UNIQUE and DEFAULT settings; a field
    qualifies for auto-increment when its AUTO_INCREMENT setting is present
    and not false, or when the setting is absent and the field is the
    primary key; integers and decimal strings are integer-convertible; a
    key name is kind, table and fields joined by underscores, every run of
    disallowed characters replaced by one underscore; a table name holding
    a dot names its namespace before the dot. *)
#[export] Instance commonDialect : Host := {|
  ParseFieldStructForDialect := common.ParseFieldStruct;
  fieldCanAutoIncrement := common.canAutoIncrement;
  parseInt := common.parse;
  commonDialect_BuildKeyName := common.KeyName;
  keyNameRegex_ReplaceAllString := fun src repl => common.replaceRuns repl false src;
  currentDatabaseAndTable := common.databaseAndTable
|}.

(** ** Notions the properties are stated with *)

(** What an existence check answers from the row of its query. *)
Definition positiveCount (r : Row) : bool := 0 <? fst (Scan r 0).

(** Step 5 of DataTypeOf: the type followed by the additional modifiers
    of the field, unless they are blank. *)
Definition withModifiers (sqlType additionalType : string) : string :=
  if String.eqb (strings.TrimSpace additionalType) "" then sqlType
  else sqlType +:+ " " +:+ additionalType.

(** The integer kinds, signed and unsigned. *)
Definition isIntegerKind (k : reflect.Kind) : bool :=
  match k with
  | reflect.Int8 | reflect.Int | reflect.Int16 | reflect.Int32
  | reflect.Uint8 | reflect.Uint | reflect.Uint16 | reflect.Uint32 | reflect.Uintptr
  | reflect.Int64 | reflect.Uint64 => true
  | _ => false
  end.

(** The column type of an integer kind (step 3 of the type inference). *)
Definition integerType (k : reflect.Kind) : string :=
  match k with
  | reflect.Int8 => "tinyint"
  | reflect.Int | reflect.Int16 | reflect.Int32 => "int"
  | reflect.Uint8 => "tinyint unsigned"
  | reflect.Uint | reflect.Uint16 | reflect.Uint32 | reflect.Uintptr => "int unsigned"
  | reflect.Int64 => "bigint"
  | reflect.Uint64 => "bigint unsigned"
  | _ => ""
  end.

(** The kinds the switch of DataTypeOf has a case for. *)
Definition hasCase (k : reflect.Kind) : bool :=
  match k with
  | reflect.Bool | reflect.Float32 | reflect.Float64 | reflect.String | reflect.Struct => true
  | _ => isIntegerKind k
  end.

(** The values the type inference has no type for: a struct that is no
    time.Time, and a value of a kind without a case that is no byte array
    or slice. *)
Definition untyped (v : reflect.Value) : bool :=
  match reflect.Value_Kind v with
  | reflect.Struct => negb (reflect.isTime v)
  | k => negb (hasCase k) && negb (IsByteArrayOrSlice v)
  end.

(** The byte [c] occurs in [s]. *)
Fixpoint occurs (c : ascii) (s : string) : bool :=
  match s with
  | EmptyString => false
  | String x s' => Ascii.eqb c x || occurs c s'
  end.

(** Every byte of [s] satisfies [p]. *)
Definition allOf (p : ascii -> bool) (s : string) : bool :=
  forallb p (list_ascii_of_string s).

(** The index names dmsqlIndexRegex matches, with their two groups: a
    prefix of at least one character, none of them a line feed, then an
    opening parenthesis, at least one decimal digit and a closing
    parenthesis, up to the end of the name. *)
Definition indexPattern (indexName prefix digits : string) : Prop :=
  indexName = prefix +:+ "(" +:+ digits +:+ ")"
  /\ prefix <> "" /\ allOf regexp.isDot prefix = true
  /\ digits <> "" /\ allOf regexp.isDigit digits = true.

(** The column type of a time.Time field: the precision of its PRECISION
    setting, and NULL unless the field is NOT NULL or the primary key. *)
Definition dateTimeType (field : StructField) : string :=
  "DATETIME"
    +:+ match TagSettings field !! "PRECISION" with
        | Some p => "(" +:+ p +:+ ")"
        | None => ""
        end
    +:+ (if bool_decide (is_Some (TagSettings field !! "NOT NULL")) || IsPrimaryKey field
         then "" else " NULL").

(** The Unicode scalar values: the code points but the surrogates. *)
Definition isScalar (r : Z) : bool :=
  (0 <=? r) && (r <=? utf8.MaxRune) && negb ((0xD800 <=? r) && (r <=? 0xDFFF)).

(** The rune a conversion to string writes for [r]. *)
Definition written (r : Z) : Z := if isScalar r then r else utf8.RuneError.

(** A lower-case hexadecimal digit. *)
Definition isLowerHex (c : ascii) : bool :=
  utf8.within 48 57 (utf8.byte c) || utf8.within 97 102 (utf8.byte c).

(** Two fields that differ at most in their AUTO_INCREMENT setting. *)
Definition sameButAutoIncrement (f g : StructField) : Prop :=
  Name f = Name g /\ IsPrimaryKey f = IsPrimaryKey g /\ Struct f = Struct g
  /\ forall k, k <> "AUTO_INCREMENT" -> TagSettings f !! k = TagSettings g !! k.

(** The white space of ASCII: tab, line feed, vertical tab, form feed,
    carriage return and space. *)
Definition isAsciiSpace (c : ascii) : bool :=
  utf8.within 9 13 (utf8.byte c) || (utf8.byte c =? 32).

(** The printable characters of ASCII but the space. *)
Definition isVisible (c : ascii) : bool := utf8.within 33 126 (utf8.byte c).

(** Some byte of [s] satisfies [p]. *)
Definition anyOf (p : ascii -> bool) (s : string) : bool :=
  existsb p (list_ascii_of_string s).

(** A rune of a string that is no white space, with at least one byte. *)
Definition solid (ch : Z * string) : Prop :=
  unicode.IsSpace (fst ch) = false /\ snd ch <> "".

(** ** Sample fields *)

Module sample.

Definition uintType : reflect.Value := reflect.mkValue reflect.Uint "uint" false false.
Definition int64Type : reflect.Value := reflect.mkValue reflect.Int64 "int64" false false.
Definition stringType : reflect.Value := reflect.mkValue reflect.String "string" false false.
Definition mapType : reflect.Value := reflect.mkValue reflect.Map "" false false.
Definition timeType : reflect.Value := reflect.mkValue reflect.Struct "Time" true false.

(** ID uint `gorm:"primary_key"` *)
Definition ID : StructField := mkStructField "ID" true ∅ uintType.

(** ID uint `gorm:"primary_key;not null"` *)
Definition RequiredID : StructField :=
  mkStructField "ID" true {[ "NOT NULL" := "NOT NULL" ]} uintType.

(** Seq int64 `gorm:"auto_increment"` *)
Definition Seq : StructField :=
  mkStructField "Seq" false {[ "AUTO_INCREMENT" := "AUTO_INCREMENT" ]} int64Type.

(** Seq int64 `gorm:"type:bigint AUTO_INCREMENT"` *)
Definition TypedSeq : StructField :=
  mkStructField "Seq" false {[ "TYPE" := "bigint AUTO_INCREMENT" ]} int64Type.

(** Seq int64 `gorm:"default:'AUTO_INCREMENT'"` *)
Definition DefaultedSeq : StructField :=
  mkStructField "Seq" false {[ "DEFAULT" := "'AUTO_INCREMENT'" ]} int64Type.

(** At time.Time `gorm:"precision:AUTO_INCREMENT"` *)
Definition Stamp : StructField :=
  mkStructField "At" false {[ "PRECISION" := "AUTO_INCREMENT" ]} timeType.

(** Title string `gorm:"size:100"` *)
Definition Title : StructField :=
  mkStructField "Title" false {[ "SIZE" := "100" ]} stringType.

(** Title string `gorm:"size:100;not null"` *)
Definition RequiredTitle : StructField :=
  mkStructField "Title" false
    (<[ "SIZE" := "100" ]> {[ "NOT NULL" := "NOT NULL" ]}) stringType.

(** Attrs map[string]string *)
Definition Attrs : StructField := mkStructField "Attrs" false ∅ mapType.

(** A data-access handle that knows one table, users, in the tablespace
    of the dialect; every other query fails. *)
Definition db : SQLCommon :=
  {| QueryRow := fun query args =>
       if String.eqb query (tableQuery "blockchain" "users") then RowOf 1
       else RowErr "sql: no rows in result set";
     Exec := fun statement => None |}.

Definition boolType : reflect.Value := reflect.mkValue reflect.Bool "bool" false false.
Definition float64Type : reflect.Value :=
  reflect.mkValue reflect.Float64 "float64" false false.
Definition bytesType : reflect.Value := reflect.mkValue reflect.Slice "" false true.

Definition field (name : string) (tags : list (string * string)) (type : reflect.Value)
  : StructField :=
  mkStructField name false (list_to_map tags) type.

(** Seq int64 `gorm:"auto_increment;index"` *)
Definition IndexedSeq : StructField :=
  field "Seq" [("AUTO_INCREMENT", "AUTO_INCREMENT"); ("INDEX", "INDEX")] int64Type.

(** Score int64 *)
Definition Score : StructField := field "Score" [] int64Type.

(** Hash []byte `gorm:"size:20;not null"` *)
Definition Hash : StructField :=
  field "Hash" [("SIZE", "20"); ("NOT NULL", "NOT NULL")] bytesType.

(** CreatedAt time.Time `gorm:"precision:3"` *)
Definition CreatedAt : StructField := field "CreatedAt" [("PRECISION", "3")] timeType.

(** Ratio float64 `gorm:"type:decimal(10,2)"` *)
Definition Ratio : StructField := field "Ratio" [("TYPE", "decimal(10,2)")] float64Type.

(** A data-access handle whose catalog has the column users.name. *)
Definition columns : SQLCommon :=
  {| QueryRow := fun query args =>
       if String.eqb query (columnQuery "users" "name") then RowOf 1 else RowOf 0;
     Exec := fun statement => None |}.

(** A table name of 73 characters. *)
Definition longTable : string :=
  "a_table_name_that_is_really_quite_long_for_an_index_name_in_this_database".

End sample.

(** * Properties of the dialect *)

(** ** The model at work *)

Section examples.

Example sha1_abc :
  fmt.hex (sha1.Sum (bytes_of "abc")) = "a9993e364706816aba3e25717850c26c9cd0d89d".
Proof. vm_compute. reflexivity. Qed.

(** "é€" followed by a byte that starts no rune: three runes in six bytes. *)
Example runes_of_bytes :
  utf8.runes (utf8.of_runes [0xE9; 0x20AC] +:+ String (utf8.chr 0xFF) "")
  = [0xE9; 0x20AC; utf8.RuneError]
  /\ String.length (utf8.of_runes [0xE9; 0x20AC] +:+ String (utf8.chr 0xFF) "") = 6%nat.
Proof. split; vm_compute; reflexivity. Qed.

Example DataTypeOf_primary_key :
  DataTypeOf sample.ID
  = (Returned "int unsigned AUTO_INCREMENT",
     TagSettingsSet sample.ID "AUTO_INCREMENT" "AUTO_INCREMENT").
Proof. vm_compute. reflexivity. Qed.

Example DataTypeOf_indexed :
  fst (DataTypeOf (sample.field "Seq" [("AUTO_INCREMENT", "AUTO_INCREMENT");
                                       ("INDEX", "INDEX")] sample.int64Type))
  = Returned "bigint AUTO_INCREMENT".
Proof. vm_compute. reflexivity. Qed.

Example DataTypeOf_kinds :
  fst (DataTypeOf (sample.field "Active" [] sample.boolType)) = Returned "bit"
  /\ fst (DataTypeOf (sample.field "Price" [] sample.float64Type)) = Returned "double"
  /\ fst (DataTypeOf (sample.field "Count" [] sample.int64Type)) = Returned "bigint"
  /\ fst (DataTypeOf (sample.field "Name" [] sample.stringType)) = Returned "varchar(255)"
  /\ fst (DataTypeOf (sample.field "Body" [("SIZE", "0")] sample.stringType))
     = Returned "longtext"
  /\ fst (DataTypeOf (sample.field "Body" [("SIZE", "65531")] sample.stringType))
     = Returned "varchar(65531)"
  /\ fst (DataTypeOf (sample.field "Body" [("SIZE", "65532")] sample.stringType))
     = Returned "longtext"
  /\ fst (DataTypeOf (sample.field "Hash" [("SIZE", "20")] sample.bytesType))
     = Returned "varbinary(20)"
  /\ fst (DataTypeOf (sample.field "Blob" [("SIZE", "70000")] sample.bytesType))
     = Returned "longblob"
  /\ fst (DataTypeOf (sample.field "At" [] sample.timeType)) = Returned "DATETIME NULL"
  /\ fst (DataTypeOf (sample.field "At" [("PRECISION", "3"); ("NOT NULL", "NOT NULL")]
                        sample.timeType))
     = Returned "DATETIME(3) NOT NULL"
  /\ fst (DataTypeOf (sample.field "Ratio" [("TYPE", "decimal(10,2)")]
                        sample.float64Type))
     = Returned "decimal(10,2)".
Proof. repeat split; vm_compute; reflexivity. Qed.

Example LimitAndOffsetSQL_examples :
  LimitAndOffsetSQL None None = ("", None)
  /\ LimitAndOffsetSQL None (Some (AnyInt 5)) = ("", None)
  /\ LimitAndOffsetSQL (Some (AnyInt 10)) None = (" LIMIT 10", None)
  /\ LimitAndOffsetSQL (Some (AnyInt 10)) (Some (AnyInt (-5))) = (" LIMIT 10", None)
  /\ LimitAndOffsetSQL (Some (AnyInt 0)) (Some (AnyInt 0)) = (" LIMIT 0 OFFSET 0", None)
  /\ LimitAndOffsetSQL (Some (AnyInt 10)) (Some (AnyString "x"))
     = ("", Some "strconv.ParseInt: parsing x: invalid syntax").
Proof. repeat split; vm_compute; reflexivity. Qed.

Example BuildKeyName_examples :
  BuildKeyName "idx" "users" ["name"; "age"] = Returned "idx_users_name_age"
  /\ BuildKeyName "idx" "users" [] = Returned "idx_users_"
  /\ BuildKeyName "uix" sample.longTable ["first name"; "last name"]
     = Returned "first_namebef243f10d8855bf18cc8a9e6cba7c6e81a0bb9c".
Proof. repeat split; vm_compute; reflexivity. Qed.

Example NormalizeIndexAndColumn_examples :
  NormalizeIndexAndColumn "idx(a)(32)" "name" = ("idx(a)", "name(32)")
  /\ NormalizeIndexAndColumn "(10)" "name" = ("(10)", "name")
  /\ NormalizeIndexAndColumn "idx()" "name" = ("idx()", "name")
  /\ NormalizeIndexAndColumn "idx(10) " "name" = ("idx(10) ", "name")
  /\ NormalizeIndexAndColumn "idx(1x)" "name" = ("idx(1x)", "name").
Proof. repeat split; vm_compute; reflexivity. Qed.

End examples.

(** ** LIMIT and OFFSET *)

Section pagination.

Context `{Host}.

Lemma LimitAndOffsetSQL_absent offset : LimitAndOffsetSQL None offset = ("", None).
Proof. reflexivity. Qed.

Lemma LimitAndOffsetSQL_limit_error limit offset err :
  parseInt limit = inr err ->
  LimitAndOffsetSQL (Some limit) offset = ("", Some err).
Proof. intros E. unfold LimitAndOffsetSQL. now rewrite E. Qed.

Lemma LimitAndOffsetSQL_limit_negative limit offset n :
  parseInt limit = inl n -> n < 0 ->
  LimitAndOffsetSQL (Some limit) offset = ("", None).
Proof.
  intros E Hn. unfold LimitAndOffsetSQL. rewrite E.
  destruct (Z.leb_spec 0 n); [lia | reflexivity].
Qed.

Lemma LimitAndOffsetSQL_limit_only limit n :
  parseInt limit = inl n -> 0 <= n ->
  LimitAndOffsetSQL (Some limit) None = (" LIMIT " +:+ fmt.itoa n, None).
Proof.
  intros E Hn. unfold LimitAndOffsetSQL. rewrite E.
  destruct (Z.leb_spec 0 n); [reflexivity | lia].
Qed.

Lemma LimitAndOffsetSQL_offset limit offset n :
  parseInt limit = inl n -> 0 <= n ->
  LimitAndOffsetSQL (Some limit) (Some offset) =
    match parseInt offset with
    | inr err => ("", Some err)
    | inl m =>
        if 0 <=? m then ((" LIMIT " +:+ fmt.itoa n) +:+ " OFFSET " +:+ fmt.itoa m, None)
        else (" LIMIT " +:+ fmt.itoa n, None)
    end.
Proof.
  intros E Hn. unfold LimitAndOffsetSQL. rewrite E.
  destruct (Z.leb_spec 0 n); [reflexivity | lia].
Qed.

End pagination.

(** C4. LimitAndOffsetSQL returns the empty fragment and no error for an
    absent limit; the parse error, with an empty fragment, when the limit
    is not integer-convertible, or when the limit parsed to a non-negative
    integer and the offset is present and not integer-convertible;
    " LIMIT n" for a parsed limit n >= 0, followed by " OFFSET m" exactly
    when the offset is present and parses to m >= 0; nothing at all for a
    negative limit, whose offset is not even parsed, and no OFFSET clause
    for a negative offset.  On the base dialect of this file,
    LimitAndOffsetSQL(10, 5) is " LIMIT 10 OFFSET 5" and
    LimitAndOffsetSQL(-1, 5) is "". *)
Theorem LimitAndOffsetSQL_spec :
  forall (H : Host),
    (forall offset, LimitAndOffsetSQL None offset = ("", None))
    /\ (forall limit offset err,
          parseInt limit = inr err ->
          LimitAndOffsetSQL (Some limit) offset = ("", Some err))
    /\ (forall limit offset n err,
          parseInt limit = inl n -> 0 <= n -> parseInt offset = inr err ->
          LimitAndOffsetSQL (Some limit) (Some offset) = ("", Some err))
    /\ (forall limit n,
          parseInt limit = inl n -> 0 <= n ->
          LimitAndOffsetSQL (Some limit) None = (" LIMIT " +:+ fmt.itoa n, None))
    /\ (forall limit offset n m,
          parseInt limit = inl n -> 0 <= n -> parseInt offset = inl m -> 0 <= m ->
          LimitAndOffsetSQL (Some limit) (Some offset) =
            (" LIMIT " +:+ fmt.itoa n +:+ " OFFSET " +:+ fmt.itoa m, None))
    /\ (forall limit offset n m,
          parseInt limit = inl n -> 0 <= n -> parseInt offset = inl m -> m < 0 ->
          LimitAndOffsetSQL (Some limit) (Some offset) = (" LIMIT " +:+ fmt.itoa n, None))
    /\ (forall limit offset n,
          parseInt limit = inl n -> n < 0 ->
          LimitAndOffsetSQL (Some limit) offset = ("", None))
    /\ @LimitAndOffsetSQL commonDialect (Some (AnyInt 10)) (Some (AnyInt 5))
       = (" LIMIT 10 OFFSET 5", None)
    /\ @LimitAndOffsetSQL commonDialect (Some (AnyInt (-1))) (Some (AnyInt 5)) = ("", None).
Proof.
  intros H. repeat split.
  - intros; now apply LimitAndOffsetSQL_limit_error.
  - intros limit offset n err E Hn Eo.
    rewrite (LimitAndOffsetSQL_offset _ _ _ E Hn), Eo. reflexivity.
  - intros; now apply LimitAndOffsetSQL_limit_only.
  - intros limit offset n m E Hn Eo Hm.
    rewrite (LimitAndOffsetSQL_offset _ _ _ E Hn), Eo.
    destruct (Z.leb_spec 0 m); [| lia].
    reflexivity.
  - intros limit offset n m E Hn Eo Hm.
    rewrite (LimitAndOffsetSQL_offset _ _ _ E Hn), Eo.
    destruct (Z.leb_spec 0 m); [lia | reflexivity].
  - intros; now apply (LimitAndOffsetSQL_limit_negative _ _ n).
Qed.

Lemma LimitAndOffsetSQL_spec_witness :
  @LimitAndOffsetSQL commonDialect (Some (AnyString "10")) (Some (AnyString "5"))
  = (" LIMIT 10 OFFSET 5", None)
  /\ @LimitAndOffsetSQL commonDialect (Some (AnyString "ten")) (Some (AnyInt 5))
     = ("", Some "strconv.ParseInt: parsing ten: invalid syntax").
Proof.
  destruct (LimitAndOffsetSQL_spec commonDialect) as (_ & Herr & _ & _ & Hboth & _).
  split.
  - apply (Hboth (AnyString "10") (AnyString "5") 10 5); (reflexivity || lia).
  - apply (Herr (AnyString "ten") (Some (AnyInt 5))). reflexivity.
Defined.

(** ** Existence checks *)

Section existence.

Context `{Host}.

Lemma positiveCount_true r :
  positiveCount r = true <-> exists n, r = RowOf n /\ 0 < n.
Proof.
  unfold positiveCount. destruct r as [n | e]; simpl.
  - rewrite Z.ltb_lt. split.
    + intros Hn. exists n. split; [reflexivity | exact Hn].
    + intros (m & E & Hm). injection E as ->. exact Hm.
  - split; [discriminate |]. intros (m & E & _). discriminate E.
Qed.

Lemma positiveCount_error e : positiveCount (RowErr e) = false.
Proof. reflexivity. Qed.

Lemma HasForeignKey_row db tableName foreignKeyName :
  HasForeignKey db tableName foreignKeyName =
    positiveCount
      (QueryRow db foreignKeyQuery
         [snd (currentDatabaseAndTable CurrentDatabase tableName); foreignKeyName]).
Proof.
  unfold HasForeignKey, positiveCount.
  destruct (currentDatabaseAndTable CurrentDatabase tableName) as [space table]; simpl.
  destruct (Scan _ 0); reflexivity.
Qed.

Lemma HasTable_row db tableName :
  HasTable db tableName =
    positiveCount
      (QueryRow db
         (tableQuery (fst (currentDatabaseAndTable CurrentDatabase tableName))
                     (snd (currentDatabaseAndTable CurrentDatabase tableName))) []).
Proof.
  unfold HasTable, positiveCount.
  destruct (currentDatabaseAndTable CurrentDatabase tableName) as [space table]; simpl.
  destruct (Scan _ 0); reflexivity.
Qed.

Lemma HasIndex_row db tableName indexName :
  HasIndex db tableName indexName =
    positiveCount
      (QueryRow db
         (indexQuery (fst (currentDatabaseAndTable CurrentDatabase tableName))
                     (snd (currentDatabaseAndTable CurrentDatabase tableName))
                     indexName) []).
Proof.
  unfold HasIndex, positiveCount.
  destruct (currentDatabaseAndTable CurrentDatabase tableName) as [space table]; simpl.
  destruct (Scan _ 0); reflexivity.
Qed.

Lemma HasColumn_row db tableName columnName :
  HasColumn db tableName columnName =
    positiveCount
      (QueryRow db
         (columnQuery (snd (currentDatabaseAndTable CurrentDatabase tableName)) columnName)
         []).
Proof.
  unfold HasColumn, positiveCount.
  destruct (currentDatabaseAndTable CurrentDatabase tableName) as [space table]; simpl.
  destruct (Scan _ 0); reflexivity.
Qed.

End existence.

(** C8. HasTable, HasIndex, HasColumn and HasForeignKey each answer true
    if and only if the catalog query they issue yields a row whose count is
    strictly positive; when the query or the scan fails, the count keeps
    its zero value and the answer is false. *)
Theorem existence_checks_spec :
  forall (H : Host) (db : SQLCommon) (tableName name : string),
    let space := fst (currentDatabaseAndTable CurrentDatabase tableName) in
    let table := snd (currentDatabaseAndTable CurrentDatabase tableName) in
    ((HasTable db tableName = true <->
        exists n, QueryRow db (tableQuery space table) [] = RowOf n /\ 0 < n)
     /\ (forall e, QueryRow db (tableQuery space table) [] = RowErr e ->
                   HasTable db tableName = false))
    /\ ((HasIndex db tableName name = true <->
           exists n, QueryRow db (indexQuery space table name) [] = RowOf n /\ 0 < n)
        /\ (forall e, QueryRow db (indexQuery space table name) [] = RowErr e ->
                      HasIndex db tableName name = false))
    /\ ((HasColumn db tableName name = true <->
           exists n, QueryRow db (columnQuery table name) [] = RowOf n /\ 0 < n)
        /\ (forall e, QueryRow db (columnQuery table name) [] = RowErr e ->
                      HasColumn db tableName name = false))
    /\ ((HasForeignKey db tableName name = true <->
           exists n, QueryRow db foreignKeyQuery [table; name] = RowOf n /\ 0 < n)
        /\ (forall e, QueryRow db foreignKeyQuery [table; name] = RowErr e ->
                      HasForeignKey db tableName name = false)).
Proof.
  intros H db tableName name space table. subst space table.
  rewrite HasTable_row, HasIndex_row, HasColumn_row, HasForeignKey_row.
  repeat split; try (apply positiveCount_true);
    try (intros e E; rewrite E; apply positiveCount_error).
Qed.

Lemma existence_checks_spec_witness :
  @HasTable commonDialect sample.db "users" = true
  /\ @HasIndex commonDialect sample.db "users" "idx_users_name" = false.
Proof.
  destruct (existence_checks_spec commonDialect sample.db "users" "idx_users_name")
    as ((Htable & _) & (_ & Hindex) & _).
  split.
  - apply Htable. exists 1. split; [reflexivity | lia].
  - apply (Hindex "sql: no rows in result set"). reflexivity.
Defined.

(** ** Type inference *)

Section typing.

Context `{Host}.

Lemma keepAutoIncrementOnKey_frame field :
  Name (keepAutoIncrementOnKey field) = Name field
  /\ IsPrimaryKey (keepAutoIncrementOnKey field) = IsPrimaryKey field
  /\ Struct (keepAutoIncrementOnKey field) = Struct field
  /\ (forall k, k <> "AUTO_INCREMENT" ->
                TagSettings (keepAutoIncrementOnKey field) !! k = TagSettings field !! k)
  /\ (TagSettings (keepAutoIncrementOnKey field) !! "AUTO_INCREMENT"
       = TagSettings field !! "AUTO_INCREMENT"
      \/ TagSettings (keepAutoIncrementOnKey field) !! "AUTO_INCREMENT" = None).
Proof.
  unfold keepAutoIncrementOnKey, TagSettingsGet.
  destruct (TagSettings field !! "AUTO_INCREMENT") as [a |] eqn:Ea;
    [destruct (TagSettings field !! "INDEX") as [i |];
     [| destruct (IsPrimaryKey field) eqn:Epk] |];
    simpl; (split; [| split; [| split; [| split]]]); auto.
  - intros k Hk. now apply lookup_delete_ne.
  - right. apply lookup_delete_eq.
Qed.

Lemma keepAutoIncrementOnKey_strips field :
  IsPrimaryKey field = false ->
  TagSettings field !! "INDEX" = None ->
  TagSettings (keepAutoIncrementOnKey field) !! "AUTO_INCREMENT" = None.
Proof.
  intros Hpk Hidx. unfold keepAutoIncrementOnKey, TagSettingsGet.
  rewrite Hidx, Hpk.
  destruct (TagSettings field !! "AUTO_INCREMENT") as [a |] eqn:Ea; simpl.
  - apply lookup_delete_eq.
  - exact Ea.
Qed.

Lemma inferType_field dataValue size field :
  snd (inferType dataValue size field) = field
  \/ (isIntegerKind (reflect.Value_Kind dataValue) = true
      /\ fieldCanAutoIncrement field = true
      /\ snd (inferType dataValue size field)
         = TagSettingsSet field "AUTO_INCREMENT" "AUTO_INCREMENT").
Proof.
  unfold inferType.
  destruct (reflect.Value_Kind dataValue); simpl;
    repeat match goal with
           | |- context [if ?b then _ else _] => destruct b eqn:?
           | |- context [match ?o with Some _ => _ | None => _ end] => destruct o
           end; simpl; auto.
Qed.

Lemma DataTypeOf_explicit field dataValue sqlType size additionalType :
  ParseFieldStructForDialect field = (dataValue, sqlType, size, additionalType) ->
  sqlType <> "" ->
  DataTypeOf field
  = (Returned (withModifiers sqlType additionalType), keepAutoIncrementOnKey field).
Proof.
  intros E Hne. unfold DataTypeOf, withModifiers. rewrite E.
  apply String.eqb_neq in Hne. rewrite Hne, Hne.
  destruct (String.eqb (strings.TrimSpace additionalType) ""); reflexivity.
Qed.

Lemma DataTypeOf_inferred field dataValue size additionalType :
  ParseFieldStructForDialect field = (dataValue, "", size, additionalType) ->
  DataTypeOf field
  = (let inferred := inferType dataValue size (keepAutoIncrementOnKey field) in
     if String.eqb (fst inferred) "" then Panicked (invalidSqlType dataValue (snd inferred))
     else Returned (withModifiers (fst inferred) additionalType),
     snd (inferType dataValue size (keepAutoIncrementOnKey field))).
Proof.
  intros E. unfold DataTypeOf, withModifiers. rewrite E. simpl.
  destruct (inferType dataValue size (keepAutoIncrementOnKey field)) as [sqlType field'].
  simpl. destruct (String.eqb sqlType ""); [reflexivity |].
  destruct (String.eqb (strings.TrimSpace additionalType) ""); reflexivity.
Qed.

End typing.

(** C10. DataTypeOf changes at most the AUTO_INCREMENT entry of the tag
    settings of the field, which it leaves as it was, deletes or sets to
    "AUTO_INCREMENT": the name, the primary-key flag, the Go type (and so
    the kind) and every other tag setting are the same after the call, and
    so is what the base dialect of this file reads from the field (its
    value, explicit type, size and modifiers). *)
Theorem DataTypeOf_frame :
  forall (H : Host) (field : StructField),
    let field' := snd (DataTypeOf field) in
    Name field' = Name field
    /\ IsPrimaryKey field' = IsPrimaryKey field
    /\ Struct field' = Struct field
    /\ (forall k, k <> "AUTO_INCREMENT" -> TagSettings field' !! k = TagSettings field !! k)
    /\ (TagSettings field' !! "AUTO_INCREMENT" = TagSettings field !! "AUTO_INCREMENT"
        \/ TagSettings field' !! "AUTO_INCREMENT" = None
        \/ TagSettings field' !! "AUTO_INCREMENT" = Some "AUTO_INCREMENT")
    /\ common.ParseFieldStruct (snd (@DataTypeOf commonDialect field))
       = common.ParseFieldStruct field.
Proof.
  assert (frame : forall (H : Host) (field : StructField),
    let field' := snd (DataTypeOf field) in
    Name field' = Name field
    /\ IsPrimaryKey field' = IsPrimaryKey field
    /\ Struct field' = Struct field
    /\ (forall k, k <> "AUTO_INCREMENT" -> TagSettings field' !! k = TagSettings field !! k)
    /\ (TagSettings field' !! "AUTO_INCREMENT" = TagSettings field !! "AUTO_INCREMENT"
        \/ TagSettings field' !! "AUTO_INCREMENT" = None
        \/ TagSettings field' !! "AUTO_INCREMENT" = Some "AUTO_INCREMENT")).
  { intros H field field'. subst field'.
    destruct (keepAutoIncrementOnKey_frame field) as (Kn & Kp & Ks & Kt & Ka).
    destruct (ParseFieldStructForDialect field) as [[[dataValue sqlType] size] additionalType]
      eqn:E.
    destruct (String.eqb_spec sqlType "") as [-> | Hne].
    - rewrite (DataTypeOf_inferred _ _ _ _ E). cbn [snd].
      destruct (inferType_field dataValue size (keepAutoIncrementOnKey field))
        as [-> | (_ & _ & ->)].
      + repeat split; auto. destruct Ka; auto.
      + simpl. repeat split; auto.
        * intros k Hk. rewrite lookup_insert_ne by congruence. now apply Kt.
        * right; right. apply lookup_insert_eq.
    - rewrite (DataTypeOf_explicit _ _ _ _ _ E Hne). cbn [snd].
      repeat split; auto. destruct Ka; auto. }
  intros H field field'.
  destruct (frame H field) as (Fn & Fp & Fs & Ft & Fa).
  repeat split; auto.
  destruct (frame commonDialect field) as (_ & _ & Cs & Ct & _).
  unfold common.ParseFieldStruct, common.setting, TagSettingsGet.
  rewrite Cs, !Ct by discriminate. reflexivity.
Qed.

Lemma DataTypeOf_frame_witness :
  TagSettings (snd (@DataTypeOf commonDialect sample.RequiredTitle)) !! "SIZE"
  = TagSettings sample.RequiredTitle !! "SIZE".
Proof.
  apply (DataTypeOf_frame commonDialect sample.RequiredTitle). discriminate.
Defined.

Section panics.

Context `{Host}.

Lemma inferType_untyped dataValue size field :
  fst (inferType dataValue size field) = "" <-> untyped dataValue = true.
Proof.
  unfold inferType, untyped, IsByteArrayOrSlice.
  destruct (reflect.Value_Kind dataValue); simpl;
    repeat match goal with
           | |- context [if ?b then _ else _] => destruct b
           | |- context [match ?o with Some _ => _ | None => _ end] => destruct o
           end; simpl; split; intros E; try reflexivity; try discriminate E.
Qed.

Lemma inferType_Name dataValue size field :
  Name (snd (inferType dataValue size field)) = Name field.
Proof.
  destruct (inferType_field dataValue size field) as [-> | (_ & _ & ->)]; reflexivity.
Qed.

End panics.

(** C5. DataTypeOf panics if and only if no explicit SQL type was given
    and the inference from the kind produced none, which happens exactly
    for a struct that is no time.Time and for a kind without a case that is
    no byte array or slice; the message of the panic names the type, the
    kind and the field; in every other case the call returns a type. *)
Theorem DataTypeOf_panics :
  forall (H : Host) (field : StructField) dataValue sqlType size additionalType,
    ParseFieldStructForDialect field = (dataValue, sqlType, size, additionalType) ->
    let inferred := fst (inferType dataValue size (keepAutoIncrementOnKey field)) in
    ((exists msg, fst (DataTypeOf field) = Panicked msg) <-> sqlType = "" /\ inferred = "")
    /\ (forall msg,
          fst (DataTypeOf field) = Panicked msg ->
          msg = "invalid sql type " +:+ reflect.Type_Name dataValue +:+ " ("
                  +:+ reflect.Kind_String (reflect.Value_Kind dataValue)
                  +:+ ") in field " +:+ Name field +:+ " for dmsql")
    /\ (~ (sqlType = "" /\ inferred = "") -> exists s, fst (DataTypeOf field) = Returned s)
    /\ (inferred = "" <-> untyped dataValue = true).
Proof.
  intros H field dataValue sqlType size additionalType E inferred.
  assert (cases :
    (sqlType = "" /\ inferred = ""
     /\ fst (DataTypeOf field)
        = Panicked (invalidSqlType dataValue
                      (snd (inferType dataValue size (keepAutoIncrementOnKey field)))))
    \/ (~ (sqlType = "" /\ inferred = "") /\ exists s, fst (DataTypeOf field) = Returned s)).
  { destruct (String.eqb_spec sqlType "") as [-> | Hne].
    - rewrite (DataTypeOf_inferred _ _ _ _ E). cbn [fst]. fold inferred.
      destruct (String.eqb_spec inferred "") as [Ei | Hi].
      + left. auto.
      + right. split; [tauto | eauto].
    - rewrite (DataTypeOf_explicit _ _ _ _ _ E Hne). right. split; [tauto | eauto]. }
  split; [split | split; [| split]].
  - intros [msg Hmsg]. destruct cases as [(? & ? & _) | (_ & s & Hs)]; [tauto |].
    rewrite Hs in Hmsg. discriminate Hmsg.
  - intros Hb. destruct cases as [(_ & _ & Hp) | (Hn & _)]; [eauto | tauto].
  - intros msg Hmsg. destruct cases as [(_ & _ & Hp) | (_ & s & Hs)].
    + rewrite Hp in Hmsg. injection Hmsg as <-.
      unfold invalidSqlType. rewrite inferType_Name.
      destruct (keepAutoIncrementOnKey_frame field) as (-> & _). reflexivity.
    + rewrite Hs in Hmsg. discriminate Hmsg.
  - intros Hn. destruct cases as [(? & ? & _) | (_ & Hs)]; [tauto | exact Hs].
  - apply inferType_untyped.
Qed.

Lemma DataTypeOf_panics_witness :
  @ParseFieldStructForDialect commonDialect sample.Attrs = (sample.mapType, "", 255, "")
  /\ fst (@DataTypeOf commonDialect sample.Attrs)
     = Panicked "invalid sql type  (map) in field Attrs for dmsql".
Proof.
  split; [reflexivity |].
  destruct (DataTypeOf_panics commonDialect sample.Attrs _ _ _ _ eq_refl)
    as (Hiff & Hmsg & _).
  destruct (proj2 Hiff (conj eq_refl eq_refl)) as [msg Hp].
  rewrite Hp. f_equal. exact (Hmsg msg Hp).
Defined.

Section inference.

Context `{Host}.

Lemma withModifiers_blank sqlType additionalType :
  strings.TrimSpace additionalType = "" -> withModifiers sqlType additionalType = sqlType.
Proof. intros E. unfold withModifiers. now rewrite E. Qed.

Lemma withModifiers_head c sqlType additionalType :
  exists rest, withModifiers (String c sqlType) additionalType = String c rest.
Proof.
  unfold withModifiers.
  destruct (String.eqb (strings.TrimSpace additionalType) ""); simpl; eauto.
Qed.

Lemma DataTypeOf_typed field dataValue size additionalType c sqlType :
  ParseFieldStructForDialect field = (dataValue, "", size, additionalType) ->
  fst (inferType dataValue size (keepAutoIncrementOnKey field)) = String c sqlType ->
  fst (DataTypeOf field) = Returned (withModifiers (String c sqlType) additionalType).
Proof.
  intros E Ei. rewrite (DataTypeOf_inferred _ _ _ _ E). cbn [fst]. now rewrite Ei.
Qed.

Lemma inferType_string dataValue size field :
  reflect.Value_Kind dataValue = reflect.String ->
  fst (inferType dataValue size field)
  = if (0 <? size) && (size <? 65532) then "varchar(" +:+ fmt.itoa size +:+ ")"
    else "longtext".
Proof.
  intros Ek. unfold inferType. rewrite Ek.
  destruct ((0 <? size) && (size <? 65532)); reflexivity.
Qed.

Lemma inferType_integer dataValue size field :
  isIntegerKind (reflect.Value_Kind dataValue) = true ->
  fieldCanAutoIncrement field = true ->
  inferType dataValue size field
  = (integerType (reflect.Value_Kind dataValue) +:+ " AUTO_INCREMENT",
     TagSettingsSet field "AUTO_INCREMENT" "AUTO_INCREMENT").
Proof.
  intros Hk Hc. unfold inferType.
  destruct (reflect.Value_Kind dataValue); try discriminate Hk; rewrite Hc; reflexivity.
Qed.

Lemma integerType_head k :
  isIntegerKind k = true -> exists c rest, integerType k = String c rest.
Proof. destruct k; try discriminate; simpl; eauto. Qed.

End inference.

(** C3, amended. For a field with no explicit SQL type whose kind is
    string, DataTypeOf returns "varchar(<size>)" exactly when
    0 < size < 65532 and "longtext" otherwise, in both cases followed by a
    space and the additional modifiers of the field unless these are blank;
    a field without modifiers gets the bare type. *)
Theorem DataTypeOf_string :
  forall (H : Host) (field : StructField) dataValue size additionalType,
    ParseFieldStructForDialect field = (dataValue, "", size, additionalType) ->
    reflect.Value_Kind dataValue = reflect.String ->
    (fst (DataTypeOf field)
     = Returned (withModifiers ("varchar(" +:+ fmt.itoa size +:+ ")") additionalType)
     <-> 0 < size < 65532)
    /\ (fst (DataTypeOf field) = Returned (withModifiers "longtext" additionalType)
        <-> ~ 0 < size < 65532)
    /\ (strings.TrimSpace additionalType = "" ->
        (fst (DataTypeOf field) = Returned ("varchar(" +:+ fmt.itoa size +:+ ")")
         <-> 0 < size < 65532)
        /\ (fst (DataTypeOf field) = Returned "longtext" <-> ~ 0 < size < 65532)).
Proof.
  intros H field dataValue size additionalType E Ek.
  assert (Hi := inferType_string dataValue size (keepAutoIncrementOnKey field) Ek).
  assert (Hdiff : withModifiers ("varchar(" +:+ fmt.itoa size +:+ ")") additionalType
                  <> withModifiers "longtext" additionalType).
  { destruct (withModifiers_head "v" ("archar(" +:+ fmt.itoa size +:+ ")") additionalType)
      as [r1 E1].
    destruct (withModifiers_head "l" "ongtext" additionalType) as [r2 E2].
    change ("varchar(" +:+ fmt.itoa size +:+ ")")
      with (String "v" ("archar(" +:+ fmt.itoa size +:+ ")")).
    change "longtext" with (String "l" "ongtext").
    rewrite E1, E2. discriminate. }
  assert (main :
    (fst (DataTypeOf field)
     = Returned (withModifiers ("varchar(" +:+ fmt.itoa size +:+ ")") additionalType)
     <-> 0 < size < 65532)
    /\ (fst (DataTypeOf field) = Returned (withModifiers "longtext" additionalType)
        <-> ~ 0 < size < 65532)).
  { destruct (Z.ltb_spec 0 size); destruct (Z.ltb_spec size 65532); simpl in Hi;
      rewrite (DataTypeOf_typed _ _ _ _ _ _ E Hi);
      (split; split; intros R; try lia; try reflexivity;
       try (exfalso; injection R as R;
            first [exact (Hdiff R) | exact (Hdiff (eq_sym R))])). }
  split; [apply main | split; [apply main |]].
  intros Hb. rewrite !(withModifiers_blank _ _ Hb) in main. exact main.
Qed.

Lemma DataTypeOf_string_witness :
  fst (@DataTypeOf commonDialect sample.RequiredTitle) = Returned "varchar(100) NOT NULL"
  /\ fst (@DataTypeOf commonDialect sample.Title) = Returned "varchar(100)".
Proof.
  split.
  - apply (DataTypeOf_string commonDialect sample.RequiredTitle _ 100 "NOT NULL"
             eq_refl eq_refl).
    lia.
  - apply (proj2 (proj2 (DataTypeOf_string commonDialect sample.Title _ 100 ""
                           eq_refl eq_refl)) eq_refl).
    lia.
Defined.

(** C3 as stated fails: a string field of size 100 that is NOT NULL gets
    "varchar(100) NOT NULL", not "varchar(100)". *)
Lemma DataTypeOf_string_counterexample :
  ~ (forall (field : StructField) dataValue size additionalType,
        @ParseFieldStructForDialect commonDialect field
        = (dataValue, "", size, additionalType) ->
        reflect.Value_Kind dataValue = reflect.String ->
        (fst (@DataTypeOf commonDialect field)
         = Returned ("varchar(" +:+ fmt.itoa size +:+ ")")
         <-> 0 < size < 65532)).
Proof.
  intros C.
  destruct (C sample.RequiredTitle _ 100 "NOT NULL" eq_refl eq_refl) as [_ C'].
  assert (R := C' ltac:(lia)). vm_compute in R. discriminate R.
Qed.

(** C2, amended. For a field with no explicit SQL type whose kind is an
    integer kind and which the eligibility rule of the base dialect
    accepts when DataTypeOf consults it (after a setting that is on no KEY
    column was stripped), DataTypeOf returns the column type of the kind
    followed by " AUTO_INCREMENT" and then, unless they are blank, by a
    space and the additional modifiers of the field, and it sets the
    AUTO_INCREMENT tag setting to "AUTO_INCREMENT"; the returned string
    ends in AUTO_INCREMENT when the modifiers are blank. *)
Theorem DataTypeOf_integer_auto_increment :
  forall (H : Host) (field : StructField) dataValue size additionalType,
    ParseFieldStructForDialect field = (dataValue, "", size, additionalType) ->
    isIntegerKind (reflect.Value_Kind dataValue) = true ->
    fieldCanAutoIncrement (keepAutoIncrementOnKey field) = true ->
    fst (DataTypeOf field)
    = Returned (withModifiers (integerType (reflect.Value_Kind dataValue)
                                 +:+ " AUTO_INCREMENT") additionalType)
    /\ TagSettings (snd (DataTypeOf field)) !! "AUTO_INCREMENT" = Some "AUTO_INCREMENT"
    /\ (strings.TrimSpace additionalType = "" ->
        exists s, fst (DataTypeOf field) = Returned s
                  /\ strings.HasSuffix s "AUTO_INCREMENT" = true).
Proof.
  intros H field dataValue size additionalType E Hk Hc.
  assert (Hi := inferType_integer dataValue size _ Hk Hc).
  destruct (integerType_head _ Hk) as (c & rest & Eh).
  assert (R : fst (DataTypeOf field)
              = Returned (withModifiers (integerType (reflect.Value_Kind dataValue)
                                           +:+ " AUTO_INCREMENT") additionalType)).
  { rewrite Eh. apply (DataTypeOf_typed _ _ _ _ _ _ E). rewrite Hi, Eh. reflexivity. }
  split; [exact R | split].
  - rewrite (DataTypeOf_inferred _ _ _ _ E). cbn [snd]. rewrite Hi. simpl.
    apply lookup_insert_eq.
  - intros Hb. rewrite (withModifiers_blank _ _ Hb) in R.
    eexists. split; [exact R |].
    clear -Hk. destruct (reflect.Value_Kind dataValue); try discriminate Hk; reflexivity.
Qed.

Lemma DataTypeOf_integer_auto_increment_witness :
  fst (@DataTypeOf commonDialect sample.RequiredID)
  = Returned "int unsigned AUTO_INCREMENT NOT NULL"
  /\ TagSettings (snd (@DataTypeOf commonDialect sample.RequiredID)) !! "AUTO_INCREMENT"
     = Some "AUTO_INCREMENT".
Proof.
  destruct (DataTypeOf_integer_auto_increment commonDialect sample.RequiredID
              _ 255 "NOT NULL" eq_refl eq_refl eq_refl) as (R & T & _).
  split; [exact R | exact T].
Defined.

(** C2 as stated fails, whether the eligibility rule is asked before
    the call or when DataTypeOf consults it.  Seq int64 with the setting
    AUTO_INCREMENT is neither primary key nor indexed: the rule accepts
    it, DataTypeOf strips the setting and returns "bigint".  The primary
    key ID uint that is NOT NULL qualifies all along, and its type
    "int unsigned AUTO_INCREMENT NOT NULL" does not end in AUTO_INCREMENT. *)
Lemma DataTypeOf_integer_auto_increment_counterexample :
  ~ (forall (field : StructField) dataValue size additionalType,
        @ParseFieldStructForDialect commonDialect field
        = (dataValue, "", size, additionalType) ->
        isIntegerKind (reflect.Value_Kind dataValue) = true ->
        @fieldCanAutoIncrement commonDialect field = true ->
        exists s, fst (@DataTypeOf commonDialect field) = Returned s
                  /\ strings.HasSuffix s "AUTO_INCREMENT" = true)
  /\ ~ (forall (field : StructField) dataValue size additionalType,
          @ParseFieldStructForDialect commonDialect field
          = (dataValue, "", size, additionalType) ->
          isIntegerKind (reflect.Value_Kind dataValue) = true ->
          @fieldCanAutoIncrement commonDialect (keepAutoIncrementOnKey field) = true ->
          exists s, fst (@DataTypeOf commonDialect field) = Returned s
                    /\ strings.HasSuffix s "AUTO_INCREMENT" = true)
  /\ @DataTypeOf commonDialect sample.Seq
     = (Returned "bigint", mkStructField "Seq" false ∅ sample.int64Type)
  /\ fst (@DataTypeOf commonDialect sample.RequiredID)
     = Returned "int unsigned AUTO_INCREMENT NOT NULL".
Proof.
  split; [| split; [| split; vm_compute; reflexivity]].
  - intros C.
    destruct (C sample.Seq _ 255 "" eq_refl eq_refl eq_refl) as (s & R & S).
    vm_compute in R. injection R as <-. vm_compute in S. discriminate S.
  - intros C.
    destruct (C sample.RequiredID _ 255 "NOT NULL" eq_refl eq_refl eq_refl) as (s & R & S).
    vm_compute in R. injection R as <-. vm_compute in S. discriminate S.
Qed.

(** ** Occurrences in strings *)

Section occurrences.

Lemma append_assoc (a b c : string) : (a +:+ b) +:+ c = a +:+ (b +:+ c).
Proof. induction a as [| x a IH]; simpl; [reflexivity | now rewrite IH]. Qed.

Lemma append_nil_r (a : string) : a +:+ "" = a.
Proof. induction a as [| x a IH]; simpl; [reflexivity | now rewrite IH]. Qed.

Lemma occurs_append c a b : occurs c (a +:+ b) = occurs c a || occurs c b.
Proof.
  induction a as [| x a IH]; simpl; [reflexivity |].
  rewrite IH. now rewrite orb_assoc.
Qed.

Lemma prefix_occurs c sub s :
  String.prefix sub s = true -> occurs c sub = true -> occurs c s = true.
Proof.
  revert sub. induction s as [| y s IH]; intros [| x sub]; simpl; try discriminate.
  destruct (ascii_dec x y) as [-> | Hne]; [| discriminate].
  intros Hp Ho. apply orb_true_iff in Ho. apply orb_true_iff.
  destruct Ho as [Ho | Ho]; [now left | right; now apply (IH sub)].
Qed.

Lemma Contains_occurs c s sub :
  strings.Contains s sub = true -> occurs c sub = true -> occurs c s = true.
Proof.
  induction s as [| y s IH]; simpl; intros Hc Ho.
  - rewrite orb_false_r in Hc. now apply (prefix_occurs c sub "").
  - apply orb_true_iff in Hc. destruct Hc as [Hp | Hc].
    + now apply (prefix_occurs c sub (String y s)).
    + apply orb_true_iff. right. now apply IH.
Qed.

Lemma lacks_by_byte c s sub :
  occurs c sub = true -> occurs c s = false -> strings.Contains s sub = false.
Proof.
  intros Ho Hs. destruct (strings.Contains s sub) eqn:Hc; [| reflexivity].
  rewrite (Contains_occurs c s sub Hc Ho) in Hs. discriminate Hs.
Qed.

Lemma prefix_before c sub a b :
  occurs c sub = false ->
  String.prefix sub (a +:+ String c b) = true -> String.prefix sub a = true.
Proof.
  intros Ho. revert sub Ho. induction a as [| y a IH]; intros [| x sub] Ho; simpl;
    try reflexivity.
  - simpl in Ho. apply orb_false_iff in Ho. destruct Ho as [Hx _].
    destruct (ascii_dec x c) as [-> | _]; [| discriminate].
    rewrite Ascii.eqb_refl in Hx. discriminate Hx.
  - simpl in Ho. apply orb_false_iff in Ho. destruct Ho as [_ Ho].
    destruct (ascii_dec x y); [| discriminate]. now apply IH.
Qed.

Lemma Contains_prefix s sub : String.prefix sub s = true -> strings.Contains s sub = true.
Proof. intros Hp. destruct s; cbn [strings.Contains]; rewrite Hp; reflexivity. Qed.

Lemma Contains_tail x s sub :
  strings.Contains s sub = true -> strings.Contains (String x s) sub = true.
Proof. intros Hc. simpl. rewrite Hc. apply orb_true_r. Qed.

Lemma Contains_across c sub a b :
  occurs c sub = false ->
  strings.Contains (a +:+ String c b) sub = true ->
  strings.Contains a sub = true \/ strings.Contains b sub = true.
Proof.
  intros Ho. induction a as [| y a IH]; intros Hc.
  - change ("" +:+ String c b) with (String c b) in Hc.
    simpl in Hc. apply orb_true_iff in Hc. destruct Hc as [Hp | Hc]; [left | now right].
    apply Contains_prefix. now apply (prefix_before c sub "" b).
  - change (String y a +:+ String c b) with (String y (a +:+ String c b)) in Hc.
    simpl in Hc. apply orb_true_iff in Hc. destruct Hc as [Hp | Hc].
    + left. apply Contains_prefix. now apply (prefix_before c sub (String y a) b).
    + destruct (IH Hc) as [Ha | Hb]; [left; now apply Contains_tail | now right].
Qed.

Lemma lacks_across c sub a b :
  occurs c sub = false ->
  strings.Contains a sub = false -> strings.Contains b sub = false ->
  strings.Contains (a +:+ String c b) sub = false.
Proof.
  intros Ho Ha Hb. destruct (strings.Contains (a +:+ String c b) sub) eqn:Hc;
    [| reflexivity].
  destruct (Contains_across c sub a b Ho Hc); congruence.
Qed.

Lemma byte_chr z : 0 <= z < 256 -> utf8.byte (utf8.chr z) = z.
Proof.
  intros Hz. unfold utf8.byte, utf8.chr.
  rewrite N_ascii_embedding by lia. lia.
Qed.

Lemma chr_byte c : utf8.chr (utf8.byte c) = c.
Proof. unfold utf8.byte, utf8.chr. rewrite N2Z.id. apply ascii_N_embedding. Qed.

Lemma byte_range c : 0 <= utf8.byte c < 256.
Proof.
  unfold utf8.byte. assert (Hb := N_ascii_bounded c). lia.
Qed.

Lemma digit_byte n : (n < 10)%N -> utf8.byte (fmt.digit n) = 48 + Z.of_N n.
Proof.
  intros Hn. unfold utf8.byte, fmt.digit. rewrite N_ascii_embedding by lia. lia.
Qed.

Lemma digit_isDigit n : (n < 10)%N -> regexp.isDigit (fmt.digit n) = true.
Proof. intros Hn. unfold regexp.isDigit. rewrite (digit_byte n Hn). lia. Qed.

Lemma isDigit_not c x : regexp.isDigit c = false -> regexp.isDigit x = true ->
  Ascii.eqb c x = false.
Proof.
  intros Hc Hx. destruct (Ascii.eqb_spec c x) as [-> | _]; [congruence | reflexivity].
Qed.

Lemma occurs_digits c fuel n acc :
  regexp.isDigit c = false -> occurs c (fmt.digits fuel n acc) = occurs c acc.
Proof.
  intros Hc. revert n acc. induction fuel as [| fuel IH]; intros n acc; simpl;
    [reflexivity |].
  assert (Hd : occurs c (String (fmt.digit (n mod 10)) acc) = occurs c acc).
  { simpl. rewrite (isDigit_not c _ Hc); [reflexivity |].
    apply digit_isDigit. apply N.mod_lt. discriminate. }
  destruct (n / 10 =? 0)%N; [exact Hd | now rewrite IH].
Qed.

Lemma occurs_itoa c z :
  regexp.isDigit c = false -> Ascii.eqb c "-" = false -> occurs c (fmt.itoa z) = false.
Proof.
  intros Hc Hm. destruct z as [| p | p]; simpl.
  - rewrite (isDigit_not c "0" Hc eq_refl). reflexivity.
  - unfold fmt.utoa. now rewrite occurs_digits.
  - rewrite Hm. unfold fmt.utoa. now rewrite occurs_digits.
Qed.

End occurrences.

(** ** AUTO_INCREMENT belongs to KEY columns *)

Section auto_increment.

Context `{Host}.

Lemma lacks_sized (pre : string) size :
  occurs "_" pre = false ->
  strings.Contains (pre +:+ fmt.itoa size +:+ ")") "AUTO_INCREMENT" = false.
Proof.
  intros Hp. apply (lacks_by_byte "_"); [reflexivity |].
  rewrite !occurs_append, Hp, occurs_itoa by reflexivity. reflexivity.
Qed.

Lemma lacks_precision p (rest : string) :
  strings.Contains p "AUTO_INCREMENT" = false ->
  strings.Contains rest "AUTO_INCREMENT" = false ->
  strings.Contains ("DATETIME" +:+ ("(" +:+ p +:+ ")") +:+ rest) "AUTO_INCREMENT" = false.
Proof.
  intros Hp Hr.
  change ("DATETIME" +:+ ("(" +:+ p +:+ ")") +:+ rest)
    with ("DATETIME" +:+ String "(" ((p +:+ ")") +:+ rest)).
  rewrite append_assoc.
  apply lacks_across; [reflexivity | reflexivity |].
  apply (lacks_across ")"); [reflexivity | exact Hp | exact Hr].
Qed.

Lemma inferType_lacks dataValue size field :
  fieldCanAutoIncrement field = false ->
  (forall p, TagSettings field !! "PRECISION" = Some p ->
             strings.Contains p "AUTO_INCREMENT" = false) ->
  strings.Contains (fst (inferType dataValue size field)) "AUTO_INCREMENT" = false.
Proof.
  intros Hc Hp. unfold inferType, TagSettingsGet. rewrite Hc.
  destruct (reflect.Value_Kind dataValue); try reflexivity;
    try (destruct (IsByteArrayOrSlice dataValue); [| reflexivity]);
    try (destruct ((0 <? size) && (size <? 65532)); [| reflexivity];
         cbn [fst]; apply lacks_sized; reflexivity).
  destruct (reflect.isTime dataValue); [| reflexivity].
  destruct (TagSettings field !! "PRECISION") as [p |] eqn:Ep;
    destruct (bool_decide (is_Some (TagSettings field !! "NOT NULL")) || IsPrimaryKey field);
    cbn [fst]; try reflexivity.
  - rewrite <- (append_nil_r ("(" +:+ p +:+ ")")).
    apply lacks_precision; [now apply Hp | reflexivity].
  - apply lacks_precision; [now apply Hp | reflexivity].
Qed.

Lemma withModifiers_lacks sqlType additionalType :
  strings.Contains sqlType "AUTO_INCREMENT" = false ->
  strings.Contains additionalType "AUTO_INCREMENT" = false ->
  strings.Contains (withModifiers sqlType additionalType) "AUTO_INCREMENT" = false.
Proof.
  intros Hs Ha. unfold withModifiers.
  destruct (String.eqb (strings.TrimSpace additionalType) ""); [exact Hs |].
  change (sqlType +:+ " " +:+ additionalType) with (sqlType +:+ String " " additionalType).
  now apply lacks_across.
Qed.

End auto_increment.

(** The eligibility rule of the base dialect of this file rejects a
    field that is not the primary key and has no AUTO_INCREMENT setting. *)
Lemma canAutoIncrement_needs_setting_or_key (field : StructField) :
  TagSettings field !! "AUTO_INCREMENT" = None ->
  IsPrimaryKey field = false ->
  common.canAutoIncrement field = false.
Proof.
  intros Ht Hp. unfold common.canAutoIncrement, TagSettingsGet. now rewrite Ht.
Qed.

(** C1, amended. Let the eligibility rule of the base dialect reject
    every field that is not the primary key and has no AUTO_INCREMENT
    setting.  For a field that is neither the primary key nor carries an
    INDEX setting, the AUTO_INCREMENT setting is absent after DataTypeOf,
    also when the caller had set it; and when none of the explicit SQL
    type, the additional modifiers and the PRECISION setting of the field
    contains AUTO_INCREMENT, the returned string does not contain
    AUTO_INCREMENT. *)
Theorem DataTypeOf_auto_increment_on_key_only :
  forall (H : Host) (field : StructField) dataValue sqlType size additionalType,
    (forall f, TagSettings f !! "AUTO_INCREMENT" = None -> IsPrimaryKey f = false ->
               fieldCanAutoIncrement f = false) ->
    ParseFieldStructForDialect field = (dataValue, sqlType, size, additionalType) ->
    IsPrimaryKey field = false ->
    TagSettings field !! "INDEX" = None ->
    TagSettings (snd (DataTypeOf field)) !! "AUTO_INCREMENT" = None
    /\ (strings.Contains sqlType "AUTO_INCREMENT" = false ->
        strings.Contains additionalType "AUTO_INCREMENT" = false ->
        (forall p, TagSettings field !! "PRECISION" = Some p ->
                   strings.Contains p "AUTO_INCREMENT" = false) ->
        forall s, fst (DataTypeOf field) = Returned s ->
                  strings.Contains s "AUTO_INCREMENT" = false).
Proof.
  intros H field dataValue sqlType size additionalType Hrule E Hpk Hidx.
  assert (Hnone := keepAutoIncrementOnKey_strips field Hpk Hidx).
  destruct (keepAutoIncrementOnKey_frame field) as (_ & Kp & _ & Kt & _).
  assert (Hc : fieldCanAutoIncrement (keepAutoIncrementOnKey field) = false).
  { apply Hrule; [exact Hnone | now rewrite Kp]. }
  assert (Hsnd : snd (inferType dataValue size (keepAutoIncrementOnKey field))
                 = keepAutoIncrementOnKey field).
  { destruct (inferType_field dataValue size (keepAutoIncrementOnKey field))
      as [-> | (_ & Hc' & _)]; [reflexivity | congruence]. }
  destruct (String.eqb_spec sqlType "") as [-> | Hne].
  - split.
    + rewrite (DataTypeOf_inferred _ _ _ _ E). cbn [snd]. now rewrite Hsnd.
    + intros _ Ha Hp s R.
      rewrite (DataTypeOf_inferred _ _ _ _ E) in R. cbn [fst] in R.
      destruct (String.eqb (fst (inferType dataValue size (keepAutoIncrementOnKey field)))
                           "");
        [discriminate R |].
      injection R as <-. apply withModifiers_lacks; [| exact Ha].
      apply inferType_lacks; [exact Hc |].
      intros p Ep. apply Hp. now rewrite <- Kt by discriminate.
  - rewrite (DataTypeOf_explicit _ _ _ _ _ E Hne). split; [exact Hnone |].
    intros Hs Ha _ s R. injection R as <-. now apply withModifiers_lacks.
Qed.

Lemma DataTypeOf_auto_increment_on_key_only_witness :
  TagSettings sample.Seq !! "AUTO_INCREMENT" = Some "AUTO_INCREMENT"
  /\ TagSettings (snd (@DataTypeOf commonDialect sample.Seq)) !! "AUTO_INCREMENT" = None
  /\ strings.Contains "bigint" "AUTO_INCREMENT" = false.
Proof.
  destruct (DataTypeOf_auto_increment_on_key_only commonDialect sample.Seq _ "" 255 ""
              canAutoIncrement_needs_setting_or_key eq_refl eq_refl eq_refl) as (T & S).
  split; [reflexivity | split; [exact T |]].
  apply S; try reflexivity. intros p Ep. discriminate Ep.
Defined.

(** C1 as stated fails: a field that is neither the primary key nor
    indexed and whose explicit SQL type is "bigint AUTO_INCREMENT" gets
    that type; the additional modifiers and the PRECISION setting reach
    the returned string as they are, too. *)
Lemma DataTypeOf_auto_increment_on_key_only_counterexample :
  ~ (forall field : StructField,
        IsPrimaryKey field = false ->
        TagSettings field !! "INDEX" = None ->
        forall s, fst (@DataTypeOf commonDialect field) = Returned s ->
                  strings.Contains s "AUTO_INCREMENT" = false)
  /\ fst (@DataTypeOf commonDialect sample.TypedSeq) = Returned "bigint AUTO_INCREMENT"
  /\ fst (@DataTypeOf commonDialect sample.DefaultedSeq)
     = Returned "bigint DEFAULT 'AUTO_INCREMENT'"
  /\ fst (@DataTypeOf commonDialect sample.Stamp)
     = Returned "DATETIME(AUTO_INCREMENT) NULL".
Proof.
  split; [| repeat split; vm_compute; reflexivity].
  intros C.
  assert (R := C sample.TypedSeq eq_refl eq_refl "bigint AUTO_INCREMENT" eq_refl).
  vm_compute in R. discriminate R.
Qed.

(** ** The index pattern *)

Section pattern.

Lemma list_of_append (a b : string) :
  list_ascii_of_string (a +:+ b) = list_ascii_of_string a ++ list_ascii_of_string b.
Proof. induction a as [| x a IH]; simpl; [reflexivity | now rewrite IH]. Qed.

Lemma string_of_app (a b : list ascii) :
  string_of_list_ascii (a ++ b) = string_of_list_ascii a +:+ string_of_list_ascii b.
Proof. induction a as [| x a IH]; simpl; [reflexivity | now rewrite IH]. Qed.

Lemma forallb_rev {A} (p : A -> bool) (l : list A) : forallb p (rev l) = forallb p l.
Proof.
  induction l as [| x l IH]; simpl; [reflexivity |].
  rewrite forallb_app, IH. simpl. rewrite andb_true_r. apply andb_comm.
Qed.

Lemma span_stops (p : ascii -> bool) a c b :
  forallb p a = true -> p c = false -> regexp.span p (a ++ c :: b) = (a, c :: b).
Proof.
  intros Ha Hc. induction a as [| x a IH]; simpl.
  - now rewrite Hc.
  - simpl in Ha. apply andb_true_iff in Ha. destruct Ha as [Hx Ha].
    rewrite Hx, (IH Ha). reflexivity.
Qed.

Lemma span_spec (p : ascii -> bool) l a b :
  regexp.span p l = (a, b) ->
  l = a ++ b /\ forallb p a = true.
Proof.
  revert a b. induction l as [| x l IH]; intros a b E; simpl in E.
  - injection E as <- <-. split; reflexivity.
  - destruct (p x) eqn:Hx.
    + destruct (regexp.span p l) as [a' b'] eqn:E'. injection E as <- <-.
      destruct (IH a' b' eq_refl) as [-> Ha]. split; [reflexivity |].
      simpl. now rewrite Hx.
    + injection E as <- <-. split; reflexivity.
Qed.

Lemma isEmpty_false {A} (l : list A) : regexp.isEmpty l = false <-> l <> [].
Proof. destruct l; simpl; split; congruence. Qed.

Lemma string_of_nonempty (l : list ascii) : l <> [] -> string_of_list_ascii l <> "".
Proof. destruct l; simpl; congruence. Qed.

Lemma list_of_nonempty (s : string) : s <> "" -> list_ascii_of_string s <> [].
Proof. destruct s; simpl; congruence. Qed.

Lemma rev_nonempty {A} (l : list A) : l <> [] -> rev l <> [].
Proof.
  destruct l as [| x l]; [congruence |]. simpl. intros _ E.
  apply app_eq_nil in E. destruct E as [_ E]. discriminate E.
Qed.

Lemma FindStringSubmatch_match indexName prefix digits :
  indexPattern indexName prefix digits ->
  dmsqlIndexRegex_FindStringSubmatch indexName = [indexName; prefix; digits].
Proof.
  intros (E & Hp & Hdot & Hd & Hdig). unfold allOf in *.
  unfold dmsqlIndexRegex_FindStringSubmatch.
  assert (El : rev (list_ascii_of_string indexName)
               = ")"%char :: rev (list_ascii_of_string digits)
                   ++ "("%char :: rev (list_ascii_of_string prefix)).
  { rewrite E, !list_of_append. simpl. rewrite !rev_app_distr. simpl.
    rewrite rev_app_distr. simpl. rewrite <- app_assoc. reflexivity. }
  rewrite El. simpl.
  rewrite span_stops; [| now rewrite forallb_rev | reflexivity].
  simpl. rewrite forallb_rev, Hdot.
  rewrite (proj2 (isEmpty_false _) (rev_nonempty _ (list_of_nonempty _ Hd))).
  rewrite (proj2 (isEmpty_false _) (rev_nonempty _ (list_of_nonempty _ Hp))).
  simpl. rewrite !rev_involutive, !string_of_list_ascii_of_string. reflexivity.
Qed.

Lemma FindStringSubmatch_cases indexName :
  dmsqlIndexRegex_FindStringSubmatch indexName = []
  \/ exists prefix digits,
       indexPattern indexName prefix digits
       /\ dmsqlIndexRegex_FindStringSubmatch indexName = [indexName; prefix; digits].
Proof.
  unfold dmsqlIndexRegex_FindStringSubmatch.
  destruct (rev (list_ascii_of_string indexName)) as [| c r] eqn:El; [now left |].
  destruct (Ascii.eqb_spec c ")") as [-> | _]; [| now left].
  destruct (regexp.span regexp.isDigit r) as [ds r'] eqn:Es.
  destruct r' as [| o pre]; [now left |].
  destruct (Ascii.eqb_spec o "(") as [-> | _]; [| now left].
  destruct (regexp.isEmpty ds) eqn:Eds; [now left |].
  destruct (regexp.isEmpty pre) eqn:Epre; [now left |].
  destruct (forallb regexp.isDot pre) eqn:Edot; [| now left].
  right. simpl. eexists _, _. split; [| reflexivity].
  destruct (span_spec _ _ _ _ Es) as [-> Hdig].
  apply isEmpty_false in Eds, Epre.
  unfold indexPattern, allOf. rewrite !list_ascii_of_string_of_list_ascii, !forallb_rev.
  split; [| split; [now apply string_of_nonempty, rev_nonempty |
            split; [exact Edot | split; [now apply string_of_nonempty, rev_nonempty |
                                          exact Hdig]]]].
  rewrite <- (string_of_list_ascii_of_string indexName).
  rewrite <- (rev_involutive (list_ascii_of_string indexName)), El.
  simpl. rewrite rev_app_distr. simpl. rewrite <- !app_assoc. simpl.
  rewrite !string_of_app. simpl. rewrite string_of_app. reflexivity.
Qed.

Lemma Plus_Class_inv p before s after g :
  regexp.Matches (regexp.Plus (regexp.Class p)) before s after g ->
  g = [] /\ s <> "" /\ allOf p s = true.
Proof.
  intros M. remember (regexp.Plus (regexp.Class p)) as r eqn:Er.
  induction M as [| | r pre s post g M _ | r pre s1 s2 post g1 g2 M1 _ M2 IH | | |];
    try discriminate Er; injection Er as ->.
  - inversion M as [p' c pre' post' Hc | | | | | |]; subst.
    unfold allOf. simpl. rewrite Hc. repeat split. discriminate.
  - destruct (IH eq_refl) as (-> & Hne & Hall).
    inversion M1 as [p' c pre' post' Hc | | | | | |]; subst.
    unfold allOf in *. simpl. rewrite Hc, Hall. repeat split. discriminate.
Qed.

Lemma Plus_Class_intro p before s after :
  s <> "" -> allOf p s = true ->
  regexp.Matches (regexp.Plus (regexp.Class p)) before s after [].
Proof.
  unfold allOf. revert before.
  induction s as [| c s IH]; intros before Hne Hall; [congruence |].
  simpl in Hall. apply andb_true_iff in Hall. destruct Hall as [Hc Hall].
  destruct s as [| c' s].
  - apply regexp.MPlusOne. now apply regexp.MClass.
  - change (String c (String c' s)) with (String c "" +:+ String c' s).
    eapply regexp.MPlusMore; [now apply regexp.MClass |].
    apply IH; [discriminate | exact Hall].
Qed.

(** What dmsqlIndexRegex matches: the whole text, cut into the prefix
    and the digits of [indexPattern]. *)
Lemma dmsqlIndexRegex_matches before s after groups :
  regexp.Matches dmsqlIndexRegex before s after groups <->
  before = "" /\ after = ""
  /\ exists prefix digits, groups = [prefix; digits] /\ indexPattern s prefix digits.
Proof.
  unfold dmsqlIndexRegex. split.
  - intros M.
    repeat match goal with
           | M : regexp.Matches (regexp.Cat _ _) _ _ _ _ |- _ =>
               inversion M; subst; clear M
           | M : regexp.Matches (regexp.Group _) _ _ _ _ |- _ =>
               inversion M; subst; clear M
           | M : regexp.Matches (regexp.Class _) _ _ _ _ |- _ =>
               inversion M; subst; clear M
           | M : regexp.Matches regexp.Bol _ _ _ _ |- _ => inversion M; subst; clear M
           | M : regexp.Matches regexp.Eol _ _ _ _ |- _ => inversion M; subst; clear M
           end.
    repeat match goal with
           | M : regexp.Matches (regexp.Plus (regexp.Class _)) _ _ _ _ |- _ =>
               apply Plus_Class_inv in M; destruct M as (-> & ? & ?)
           | E : Ascii.eqb _ _ = true |- _ => apply Ascii.eqb_eq in E; subst
           end.
    split; [reflexivity | split; [reflexivity |]].
    eexists _, _. split; [reflexivity |].
    unfold indexPattern. simpl. repeat split; auto.
  - intros (-> & -> & prefix & digits & -> & (-> & Hp & Hdot & Hd & Hdig)).
    change (prefix +:+ "(" +:+ digits +:+ ")")
      with ("" +:+ (prefix +:+ (String "(" "" +:+ (digits +:+ (String ")" "" +:+ ""))))).
    change [prefix; digits] with ([] ++ ([prefix] ++ ([] ++ ([digits] ++ ([] ++ []))))).
    apply regexp.MCat; [apply regexp.MBol |].
    apply regexp.MCat; [apply regexp.MGroup; now apply Plus_Class_intro |].
    apply regexp.MCat; [now apply regexp.MClass |].
    apply regexp.MCat; [apply regexp.MGroup; now apply Plus_Class_intro |].
    apply regexp.MCat; [now apply regexp.MClass | apply regexp.MEol].
Qed.

End pattern.

(** C7. If the index name matches dmsqlIndexRegex, that is, if it is a
    prefix followed by a parenthesised group of digits,
    NormalizeIndexAndColumn returns the prefix as the index name and
    "<column>(<digits>)" as the column expression; if the expression
    matches nowhere in the index name, it returns both names as they are.
    ("idx_name(10)", "col") becomes ("idx_name", "col(10)"), and
    ("idx_name", "col") stays. *)
Theorem NormalizeIndexAndColumn_spec :
  forall indexName columnName : string,
    (forall prefix digits,
        regexp.Matches dmsqlIndexRegex "" indexName "" [prefix; digits] ->
        NormalizeIndexAndColumn indexName columnName
        = (prefix, columnName +:+ "(" +:+ digits +:+ ")"))
    /\ ((forall before s after groups,
           indexName = before +:+ s +:+ after ->
           ~ regexp.Matches dmsqlIndexRegex before s after groups) ->
        NormalizeIndexAndColumn indexName columnName = (indexName, columnName))
    /\ (forall prefix digits,
          regexp.Matches dmsqlIndexRegex "" indexName "" [prefix; digits]
          <-> indexPattern indexName prefix digits)
    /\ NormalizeIndexAndColumn "idx_name(10)" "col" = ("idx_name", "col(10)")
    /\ NormalizeIndexAndColumn "idx_name" "col" = ("idx_name", "col").
Proof.
  intros indexName columnName.
  assert (Hiff : forall prefix digits,
             regexp.Matches dmsqlIndexRegex "" indexName "" [prefix; digits]
             <-> indexPattern indexName prefix digits).
  { intros prefix digits. rewrite dmsqlIndexRegex_matches. split.
    - intros (_ & _ & p & d & E & Hm). injection E as -> ->. exact Hm.
    - intros Hm. eauto 6. }
  split; [| split; [| split; [exact Hiff | split; reflexivity]]].
  - intros prefix digits Hm. apply Hiff in Hm. unfold NormalizeIndexAndColumn.
    now rewrite (FindStringSubmatch_match _ _ _ Hm).
  - intros Hno. unfold NormalizeIndexAndColumn.
    destruct (FindStringSubmatch_cases indexName) as [-> | (prefix & digits & Hm & _)];
      [reflexivity |].
    apply Hiff in Hm. destruct (Hno "" indexName "" [prefix; digits]); [| exact Hm].
    simpl. now rewrite append_nil_r.
Qed.

Lemma NormalizeIndexAndColumn_spec_witness :
  indexPattern "users_name(10)" "users_name" "10"
  /\ NormalizeIndexAndColumn "users_name(10)" "name" = ("users_name", "name(10)").
Proof.
  assert (Hm : indexPattern "users_name(10)" "users_name" "10").
  { repeat split; (reflexivity || discriminate). }
  split; [exact Hm |].
  destruct (NormalizeIndexAndColumn_spec "users_name(10)" "name") as (Hyes & _ & Hiff & _).
  apply (Hyes "users_name" "10"). apply Hiff. exact Hm.
Defined.

(** ** Counting the runes of an encoded string *)

Section encoding.

Ltac dlia := Z.to_euclidean_division_equations; lia.

Lemma lor_disjoint c n x :
  0 <= n -> 0 <= x < 2 ^ n -> Z.lor (c * 2 ^ n) x = c * 2 ^ n + x.
Proof.
  intros Hn Hx.
  assert (Hland : Z.land (c * 2 ^ n) x = 0).
  { apply Z.bits_inj'. intros i Hi. rewrite Z.land_spec, Z.bits_0.
    destruct (Z.lt_ge_cases i n) as [Hlt | Hge].
    - rewrite Z.mul_pow2_bits_low by lia. reflexivity.
    - destruct (Z.eq_dec x 0) as [-> | Hx0].
      + rewrite Z.bits_0. apply andb_false_r.
      + rewrite (Z.bits_above_log2 x i); [apply andb_false_r | lia |].
        assert (Z.log2 x < n) by (apply Z.log2_lt_pow2; lia). lia. }
  rewrite <- Z.lxor_lor by exact Hland. symmetry. now apply Z.add_nocarry_lxor.
Qed.

Lemma land_63 x : Z.land x 0x3F = x mod 64.
Proof. change 0x3F with (Z.ones 6). now rewrite Z.land_ones by lia. Qed.

Lemma cont_byte x : Z.lor 0x80 (Z.land x 0x3F) = 128 + x mod 64.
Proof.
  rewrite land_63. apply (lor_disjoint 2 6); [lia |].
  change (2 ^ 6) with 64. dlia.
Qed.

Lemma lead2_byte r : 0 <= r < 2 ^ 12 -> Z.lor 0xC0 (Z.shiftr r 6) = 192 + r / 64.
Proof.
  intros Hr. rewrite Z.shiftr_div_pow2 by lia. change (2 ^ 6) with 64.
  apply (lor_disjoint 3 6); [lia |]. change (2 ^ 6) with 64. dlia.
Qed.

Lemma lead3_byte r : 0 <= r < 2 ^ 16 -> Z.lor 0xE0 (Z.shiftr r 12) = 224 + r / 4096.
Proof.
  intros Hr. rewrite Z.shiftr_div_pow2 by lia. change (2 ^ 12) with 4096.
  apply (lor_disjoint 14 4); [lia |]. change (2 ^ 4) with 16. dlia.
Qed.

Lemma lead4_byte r : 0 <= r < 2 ^ 21 -> Z.lor 0xF0 (Z.shiftr r 18) = 240 + r / 262144.
Proof.
  intros Hr. rewrite Z.shiftr_div_pow2 by lia. change (2 ^ 18) with 262144.
  apply (lor_disjoint 30 3); [lia |]. change (2 ^ 3) with 8. dlia.
Qed.

Ltac compare_all :=
  repeat match goal with
         | |- context [?a <? ?b] => destruct (Z.ltb_spec a b); try lia
         | |- context [?a <=? ?b] => destruct (Z.leb_spec a b); try lia
         | |- context [?a =? ?b] => destruct (Z.eqb_spec a b); try lia
         end.

Lemma first_ascii b : b < 128 -> utf8.first b = utf8.ascii1.
Proof. intros Hb. unfold utf8.first. compare_all. reflexivity. Qed.

Lemma first_2 b : 194 <= b <= 223 -> utf8.first b = utf8.multi 2 128 191.
Proof. intros Hb. unfold utf8.first. compare_all. reflexivity. Qed.

Lemma first_3 b b1 :
  224 <= b <= 239 -> 128 <= b1 <= 191 ->
  (b = 224 -> 160 <= b1) -> (b = 237 -> b1 <= 159) ->
  exists lo hi, utf8.first b = utf8.multi 3 lo hi /\ utf8.within lo hi b1 = true.
Proof.
  intros Hb Hb1 Hlo Hhi. unfold utf8.first.
  compare_all; eexists _, _; (split; [reflexivity |]); unfold utf8.within; lia.
Qed.

Lemma first_4 b b1 :
  240 <= b <= 244 -> 128 <= b1 <= 191 ->
  (b = 240 -> 144 <= b1) -> (b = 244 -> b1 <= 143) ->
  exists lo hi, utf8.first b = utf8.multi 4 lo hi /\ utf8.within lo hi b1 = true.
Proof.
  intros Hb Hb1 Hlo Hhi. unfold utf8.first.
  compare_all; eexists _, _; (split; [reflexivity |]); unfold utf8.within; lia.
Qed.

Lemma cont_true b : 128 <= b <= 191 -> utf8.cont b = true.
Proof. intros Hb. unfold utf8.cont, utf8.within. lia. Qed.

Lemma chunks_ascii c t :
  utf8.byte c < 128 -> utf8.chunks (String c t) = (utf8.byte c, utf8.one c) :: utf8.chunks t.
Proof. intros Hc. cbn [utf8.chunks]. now rewrite (first_ascii _ Hc). Qed.

Lemma chunks_2 c0 c1 t :
  194 <= utf8.byte c0 <= 223 -> 128 <= utf8.byte c1 <= 191 ->
  exists r, utf8.chunks (String c0 (String c1 t))
            = (r, String c0 (utf8.one c1)) :: utf8.chunks t.
Proof.
  intros H0 H1. cbn [utf8.chunks]. rewrite (first_2 _ H0).
  change (utf8.within 128 191 (utf8.byte c1)) with (utf8.cont (utf8.byte c1)).
  rewrite (cont_true _ H1). simpl. eauto.
Qed.

Lemma chunks_3 c0 c1 c2 t :
  224 <= utf8.byte c0 <= 239 -> 128 <= utf8.byte c1 <= 191 -> 128 <= utf8.byte c2 <= 191 ->
  (utf8.byte c0 = 224 -> 160 <= utf8.byte c1) ->
  (utf8.byte c0 = 237 -> utf8.byte c1 <= 159) ->
  exists r, utf8.chunks (String c0 (String c1 (String c2 t)))
            = (r, String c0 (String c1 (utf8.one c2))) :: utf8.chunks t.
Proof.
  intros H0 H1 H2 Hlo Hhi. cbn [utf8.chunks].
  destruct (first_3 _ _ H0 H1 Hlo Hhi) as (lo & hi & -> & ->).
  rewrite (cont_true _ H2). simpl. eauto.
Qed.

Lemma chunks_4 c0 c1 c2 c3 t :
  240 <= utf8.byte c0 <= 244 -> 128 <= utf8.byte c1 <= 191 ->
  128 <= utf8.byte c2 <= 191 -> 128 <= utf8.byte c3 <= 191 ->
  (utf8.byte c0 = 240 -> 144 <= utf8.byte c1) ->
  (utf8.byte c0 = 244 -> utf8.byte c1 <= 143) ->
  exists r, utf8.chunks (String c0 (String c1 (String c2 (String c3 t))))
            = (r, String c0 (String c1 (String c2 (utf8.one c3)))) :: utf8.chunks t.
Proof.
  intros H0 H1 H2 H3 Hlo Hhi. cbn [utf8.chunks].
  destruct (first_4 _ _ H0 H1 Hlo Hhi) as (lo & hi & -> & ->).
  rewrite (cont_true _ H2), (cont_true _ H3). simpl. eauto.
Qed.

Lemma chunks_enc3 r t :
  0x800 <= r <= 0xFFFF -> ~ 0xD800 <= r <= 0xDFFF ->
  exists r', utf8.chunks (utf8.enc3 r +:+ t) = (r', utf8.enc3 r) :: utf8.chunks t.
Proof.
  intros Hr Hs. unfold utf8.enc3, utf8.one. cbn [String.append].
  rewrite lead3_byte by lia. rewrite !cont_byte.
  rewrite Z.shiftr_div_pow2 by lia. change (2 ^ 6) with 64.
  apply chunks_3; rewrite ?byte_chr; dlia.
Qed.

Lemma chunks_EncodeRune r t :
  exists r', utf8.chunks (utf8.EncodeRune r +:+ t) = (r', utf8.EncodeRune r) :: utf8.chunks t.
Proof.
  unfold utf8.EncodeRune, utf8.MaxRune.
  destruct (Z.leb_spec 0 r); destruct (Z.leb_spec r 0x7F); cbn [andb].
  - unfold utf8.one. cbn [String.append]. eexists.
    rewrite chunks_ascii by (rewrite byte_chr; lia). reflexivity.
  - destruct (Z.leb_spec r 0x7FF).
    + unfold utf8.one. cbn [String.append].
      rewrite lead2_byte by lia. rewrite cont_byte.
      apply chunks_2; rewrite byte_chr; dlia.
    + destruct (Z.ltb_spec r 0); [lia |].
      destruct (Z.ltb_spec 0x10FFFF r); cbn [orb].
      * apply chunks_enc3; unfold utf8.RuneError; lia.
      * destruct (Z.leb_spec 0xD800 r); destruct (Z.leb_spec r 0xDFFF); cbn [andb];
          try (apply chunks_enc3; unfold utf8.RuneError; lia);
          (destruct (Z.leb_spec r 0xFFFF); [apply chunks_enc3; lia |]); try lia;
          unfold utf8.one; cbn [String.append];
          rewrite lead4_byte by lia; rewrite !cont_byte;
          rewrite !Z.shiftr_div_pow2 by lia;
          change (2 ^ 12) with 4096; change (2 ^ 6) with 64;
          apply chunks_4; rewrite ?byte_chr; dlia.
  - destruct (Z.ltb_spec r 0); [| lia]. cbn [orb andb].
    apply chunks_enc3; unfold utf8.RuneError; lia.
  - lia.
Qed.

Lemma RuneCount_of_runes rs t :
  utf8.RuneCountInString (utf8.of_runes rs +:+ t)
  = Z.of_nat (length rs) + utf8.RuneCountInString t.
Proof.
  unfold utf8.RuneCountInString, utf8.runes.
  induction rs as [| r rs IH]; cbn [utf8.of_runes length].
  - simpl. lia.
  - rewrite append_assoc.
    destruct (chunks_EncodeRune r (utf8.of_runes rs +:+ t)) as [r' ->].
    cbn [map length]. lia.
Qed.

Lemma hexdigit_byte n : (n < 16)%N -> utf8.byte (fmt.hexdigit n) < 128.
Proof.
  intros Hn. unfold fmt.hexdigit, utf8.byte.
  destruct (n <? 10)%N; rewrite N_ascii_embedding by lia; lia.
Qed.

Lemma RuneCount_hex bs :
  Forall (fun b => 0 <= b < 256) bs ->
  utf8.RuneCountInString (fmt.hex bs) = 2 * Z.of_nat (length bs).
Proof.
  unfold utf8.RuneCountInString, utf8.runes.
  induction 1 as [| b bs Hb _ IH]; [reflexivity |].
  cbn [fmt.hex]. rewrite !chunks_ascii by (apply hexdigit_byte; dlia).
  cbn [map length]. lia.
Qed.

Lemma be_bytes_range n x : Forall (fun b => 0 <= b < 256) (sha1.be_bytes n x).
Proof.
  unfold sha1.be_bytes. apply List.Forall_forall. intros b Hb.
  apply in_map_iff in Hb. destruct Hb as (i & <- & _).
  change 0xFF with (Z.ones 8). rewrite Z.land_ones by lia.
  apply Z.mod_pos_bound. reflexivity.
Qed.

Lemma Sum_range msg : Forall (fun b => 0 <= b < 256) (sha1.Sum msg).
Proof.
  unfold sha1.Sum. destruct (sha1.blocks _ _ _) as [[[[h0 h1] h2] h3] h4].
  repeat (apply Forall_app; split); apply be_bytes_range.
Qed.

Lemma Sum_length msg : length (sha1.Sum msg) = 20%nat.
Proof.
  unfold sha1.Sum. destruct (sha1.blocks _ _ _) as [[[[h0 h1] h2] h3] h4].
  reflexivity.
Qed.

End encoding.

(** ** Key names *)

Section key_names.

Context `{Host}.

Lemma BuildKeyName_short kind tableName fields :
  utf8.RuneCountInString (commonDialect_BuildKeyName kind tableName fields) <= 64 ->
  BuildKeyName kind tableName fields
  = Returned (commonDialect_BuildKeyName kind tableName fields).
Proof.
  intros Hshort. unfold BuildKeyName.
  destruct (Z.leb_spec (utf8.RuneCountInString
                          (commonDialect_BuildKeyName kind tableName fields)) 64);
    [reflexivity | lia].
Qed.

Lemma firstn_24 {A} (l : list A) :
  (if (24 <? length l)%nat then firstn 24 l else l) = firstn 24 l.
Proof.
  destruct (Nat.ltb_spec 24 (length l)); [reflexivity |].
  symmetry. apply firstn_all2. lia.
Qed.

Lemma BuildKeyName_long kind tableName field fields :
  64 < utf8.RuneCountInString (commonDialect_BuildKeyName kind tableName (field :: fields)) ->
  BuildKeyName kind tableName (field :: fields)
  = Returned
      (utf8.of_runes (firstn 24 (utf8.runes (keyNameRegex_ReplaceAllString field "_")))
         +:+ fmt.hex (sha1.Sum (bytes_of
                                  (commonDialect_BuildKeyName kind tableName
                                     (field :: fields))))).
Proof.
  intros Hlong. unfold BuildKeyName.
  destruct (Z.leb_spec (utf8.RuneCountInString
                          (commonDialect_BuildKeyName kind tableName (field :: fields))) 64);
    [lia |].
  now rewrite firstn_24.
Qed.

Lemma shortened_bound (rs : list Z) msg :
  utf8.RuneCountInString (utf8.of_runes (firstn 24 rs) +:+ fmt.hex (sha1.Sum msg)) <= 64.
Proof.
  rewrite RuneCount_of_runes, RuneCount_hex by apply Sum_range.
  rewrite Sum_length. assert (Hl := firstn_le_length 24 rs). lia.
Qed.

(** With at least one field, BuildKeyName returns the name of the base
    dialect when it has at most 64 code points, and otherwise the first 24
    runes of the first field, its disallowed characters replaced, followed
    by the 40 hexadecimal digits of the SHA-1 digest of the name: at most
    64 code points in both cases. *)
Lemma BuildKeyName_with_fields kind tableName field fields :
  let keyName := commonDialect_BuildKeyName kind tableName (field :: fields) in
  (utf8.RuneCountInString keyName <= 64 ->
   BuildKeyName kind tableName (field :: fields) = Returned keyName)
  /\ (64 < utf8.RuneCountInString keyName ->
      BuildKeyName kind tableName (field :: fields)
      = Returned
          (utf8.of_runes (firstn 24 (utf8.runes (keyNameRegex_ReplaceAllString field "_")))
             +:+ fmt.hex (sha1.Sum (bytes_of keyName))))
  /\ String.length (fmt.hex (sha1.Sum (bytes_of keyName))) = 40%nat
  /\ exists s, BuildKeyName kind tableName (field :: fields) = Returned s
               /\ utf8.RuneCountInString s <= 64.
Proof.
  intros keyName. split; [apply BuildKeyName_short | split; [apply BuildKeyName_long |]].
  split.
  - assert (Hl := Sum_length (bytes_of keyName)).
    destruct (sha1.Sum (bytes_of keyName)) as [| b0 l]; [discriminate Hl |].
    do 19 (destruct l as [| ? l]; [discriminate Hl |]).
    destruct l; [reflexivity | discriminate Hl].
  - destruct (Z.le_gt_cases (utf8.RuneCountInString keyName) 64) as [Hs | Hl].
    + exists keyName. split; [now apply BuildKeyName_short | exact Hs].
    + eexists. split; [now apply BuildKeyName_long | apply shortened_bound].
Qed.

End key_names.

(** C9. When the name of the base dialect exceeds 64 code points and no
    field is given, BuildKeyName panics on fields[0], the index being out
    of range; with at least one field it returns a name.  The shortening
    is defined only for a field list that is not empty. *)
Theorem BuildKeyName_needs_a_field :
  forall (H : Host) (kind tableName : string),
    (64 < utf8.RuneCountInString (commonDialect_BuildKeyName kind tableName []) ->
     BuildKeyName kind tableName []
     = Panicked "runtime error: index out of range [0] with length 0")
    /\ (forall fields, fields <> [] ->
                       exists s, BuildKeyName kind tableName fields = Returned s).
Proof.
  intros H kind tableName. split.
  - intros Hlong. unfold BuildKeyName.
    destruct (Z.leb_spec (utf8.RuneCountInString
                            (commonDialect_BuildKeyName kind tableName [])) 64);
      [lia | reflexivity].
  - intros [| field fields] Hne; [congruence |].
    destruct (BuildKeyName_with_fields kind tableName field fields)
      as (_ & _ & _ & s & Hs & _).
    eauto.
Qed.

Lemma BuildKeyName_needs_a_field_witness :
  64 < utf8.RuneCountInString (common.KeyName "idx" sample.longTable [])
  /\ @BuildKeyName commonDialect "idx" sample.longTable []
     = Panicked "runtime error: index out of range [0] with length 0".
Proof.
  assert (Hlong : 64 < utf8.RuneCountInString (common.KeyName "idx" sample.longTable []))
    by reflexivity.
  split; [exact Hlong |].
  exact (proj1 (BuildKeyName_needs_a_field commonDialect "idx" sample.longTable) Hlong).
Defined.

(** C6, at a key name too long and without fields: index names on the
    table of 73 characters with no field list.  The name of the base
    dialect has 78 code points, and BuildKeyName panics instead of
    returning a name of at most 64 code points; with one field it returns
    the shortened name. *)
Theorem BuildKeyName_long_name_without_fields :
  utf8.RuneCountInString (@commonDialect_BuildKeyName commonDialect "idx" sample.longTable [])
  = 78
  /\ @BuildKeyName commonDialect "idx" sample.longTable []
     = Panicked "runtime error: index out of range [0] with length 0"
  /\ @BuildKeyName commonDialect "idx" sample.longTable ["some column"]
     = Returned "some_column530f1da52fb5448702b239819f7b68b9ce361cc4".
Proof. repeat split; vm_compute; reflexivity. Qed.

(** * Further properties of the dialect *)

(** ** The field after DataTypeOf *)

Section field_after.

Context `{Host}.

Lemma keepAutoIncrementOnKey_key field :
  IsPrimaryKey field = true \/ is_Some (TagSettings field !! "INDEX") ->
  keepAutoIncrementOnKey field = field.
Proof.
  intros Hkey. unfold keepAutoIncrementOnKey, TagSettingsGet.
  destruct (TagSettings field !! "AUTO_INCREMENT"); [| reflexivity].
  destruct (TagSettings field !! "INDEX") as [i |]; [reflexivity |].
  destruct Hkey as [-> | [i Hi]]; [reflexivity | discriminate Hi].
Qed.

Lemma keepAutoIncrementOnKey_absent field :
  TagSettings field !! "AUTO_INCREMENT" = None -> keepAutoIncrementOnKey field = field.
Proof.
  intros Hno. unfold keepAutoIncrementOnKey, TagSettingsGet. now rewrite Hno.
Qed.

Lemma keepAutoIncrementOnKey_cases field :
  keepAutoIncrementOnKey field = field
  \/ (IsPrimaryKey field = false /\ TagSettings field !! "INDEX" = None
      /\ keepAutoIncrementOnKey field = TagSettingsDelete field "AUTO_INCREMENT").
Proof.
  unfold keepAutoIncrementOnKey, TagSettingsGet.
  destruct (TagSettings field !! "AUTO_INCREMENT"); [| now left].
  destruct (TagSettings field !! "INDEX") as [i |]; [now left |].
  destruct (IsPrimaryKey field); [now left | right; auto].
Qed.

Lemma keepAutoIncrementOnKey_idempotent field :
  keepAutoIncrementOnKey (keepAutoIncrementOnKey field) = keepAutoIncrementOnKey field.
Proof.
  destruct (keepAutoIncrementOnKey_cases field) as [E | (Hpk & Hidx & E)];
    [now rewrite !E |].
  apply keepAutoIncrementOnKey_absent. now apply keepAutoIncrementOnKey_strips.
Qed.

(** The field after the call is the field without a setting on no KEY
    column, unless the inference made an integer column AUTO_INCREMENT. *)
Lemma DataTypeOf_field_cases field dataValue sqlType size additionalType :
  ParseFieldStructForDialect field = (dataValue, sqlType, size, additionalType) ->
  snd (DataTypeOf field) = keepAutoIncrementOnKey field
  \/ (sqlType = ""
      /\ isIntegerKind (reflect.Value_Kind dataValue) = true
      /\ fieldCanAutoIncrement (keepAutoIncrementOnKey field) = true
      /\ DataTypeOf field
         = (Returned (withModifiers (integerType (reflect.Value_Kind dataValue)
                                       +:+ " AUTO_INCREMENT") additionalType),
            TagSettingsSet (keepAutoIncrementOnKey field)
              "AUTO_INCREMENT" "AUTO_INCREMENT")).
Proof.
  intros E. destruct (String.eqb_spec sqlType "") as [-> | Hne].
  - destruct (inferType_field dataValue size (keepAutoIncrementOnKey field))
      as [Hsame | (Hk & Hc & Hset)].
    + left. rewrite (DataTypeOf_inferred _ _ _ _ E). exact Hsame.
    + right. split; [reflexivity | split; [exact Hk | split; [exact Hc |]]].
      rewrite (DataTypeOf_inferred _ _ _ _ E).
      rewrite (inferType_integer _ _ _ Hk Hc). cbn [fst snd].
      destruct (integerType_head _ Hk) as (c & rest & ->). reflexivity.
  - left. now rewrite (DataTypeOf_explicit _ _ _ _ _ E Hne).
Qed.

Lemma withModifiers_prefix sqlType additionalType :
  String.prefix sqlType (withModifiers sqlType additionalType) = true.
Proof.
  unfold withModifiers.
  destruct (String.eqb (strings.TrimSpace additionalType) "").
  - induction sqlType as [| c t IH]; simpl; [reflexivity |].
    destruct (ascii_dec c c); [exact IH | congruence].
  - induction sqlType as [| c t IH]; simpl; [reflexivity |].
    destruct (ascii_dec c c); [exact IH | congruence].
Qed.

Lemma withModifiers_nonempty sqlType additionalType :
  sqlType <> "" -> withModifiers sqlType additionalType <> "".
Proof.
  destruct sqlType as [| c t]; [congruence |]. intros _.
  destruct (withModifiers_head c t additionalType) as [rest ->]. discriminate.
Qed.

End field_after.

Section more_inference.

Context `{Host}.

Lemma inferType_plain_integer dataValue size field :
  isIntegerKind (reflect.Value_Kind dataValue) = true ->
  fieldCanAutoIncrement field = false ->
  inferType dataValue size field = (integerType (reflect.Value_Kind dataValue), field).
Proof.
  intros Hk Hc. unfold inferType.
  destruct (reflect.Value_Kind dataValue); try discriminate Hk; rewrite Hc; reflexivity.
Qed.

Lemma inferType_bytes dataValue size field :
  IsByteArrayOrSlice dataValue = true ->
  inferType dataValue size field
  = (if (0 <? size) && (size <? 65532) then "varbinary(" +:+ fmt.itoa size +:+ ")"
     else "longblob", field).
Proof.
  intros Hb. assert (Hb' := Hb). unfold IsByteArrayOrSlice in Hb'. unfold inferType.
  destruct (reflect.Value_Kind dataValue); try discriminate Hb'; rewrite Hb;
    destruct ((0 <? size) && (size <? 65532)); reflexivity.
Qed.

Lemma inferType_time dataValue size field :
  reflect.Value_Kind dataValue = reflect.Struct ->
  reflect.isTime dataValue = true ->
  inferType dataValue size (keepAutoIncrementOnKey field)
  = (dateTimeType field, keepAutoIncrementOnKey field).
Proof.
  intros Ek Et. unfold inferType, dateTimeType, TagSettingsGet. rewrite Ek, Et.
  destruct (keepAutoIncrementOnKey_frame field) as (_ & -> & _ & Kt & _).
  rewrite !Kt by discriminate.
  destruct (bool_decide (is_Some (TagSettings field !! "NOT NULL")) || IsPrimaryKey field);
    [now rewrite append_nil_r | reflexivity].
Qed.

Lemma DataTypeOf_inferred_type field dataValue size additionalType sqlType field' :
  ParseFieldStructForDialect field = (dataValue, "", size, additionalType) ->
  inferType dataValue size (keepAutoIncrementOnKey field) = (sqlType, field') ->
  sqlType <> "" ->
  DataTypeOf field = (Returned (withModifiers sqlType additionalType), field').
Proof.
  intros E Ei Hne. rewrite (DataTypeOf_inferred _ _ _ _ E), Ei. cbn [fst snd].
  apply String.eqb_neq in Hne. now rewrite Hne.
Qed.

End more_inference.

(** X1. DataTypeOf leaves the field as the stripping step of lines 36-40
    made it, whatever the kind and whether or not it panics, with one
    exception: a field of integer kind without explicit SQL type which
    the eligibility rule accepts gets the setting AUTO_INCREMENT, and then
    the returned type is the AUTO_INCREMENT type of the kind. *)
Theorem DataTypeOf_sets_auto_increment_for_integers_only :
  forall (H : Host) (field : StructField) dataValue sqlType size additionalType,
    ParseFieldStructForDialect field = (dataValue, sqlType, size, additionalType) ->
    snd (DataTypeOf field) = keepAutoIncrementOnKey field
    \/ (sqlType = ""
        /\ isIntegerKind (reflect.Value_Kind dataValue) = true
        /\ fieldCanAutoIncrement (keepAutoIncrementOnKey field) = true
        /\ DataTypeOf field
           = (Returned (withModifiers (integerType (reflect.Value_Kind dataValue)
                                         +:+ " AUTO_INCREMENT") additionalType),
              TagSettingsSet (keepAutoIncrementOnKey field)
                "AUTO_INCREMENT" "AUTO_INCREMENT")).
Proof.
  intros H field dataValue sqlType size additionalType E.
  exact (DataTypeOf_field_cases _ _ _ _ _ E).
Qed.

Lemma DataTypeOf_sets_auto_increment_for_integers_only_witness :
  snd (@DataTypeOf commonDialect sample.Attrs) = sample.Attrs
  /\ snd (@DataTypeOf commonDialect sample.ID)
     = TagSettingsSet sample.ID "AUTO_INCREMENT" "AUTO_INCREMENT".
Proof.
  split.
  - destruct (DataTypeOf_sets_auto_increment_for_integers_only commonDialect sample.Attrs
                _ _ _ _ eq_refl) as [E | (_ & Hk & _)]; [exact E | discriminate Hk].
  - destruct (DataTypeOf_sets_auto_increment_for_integers_only commonDialect sample.ID
                _ _ _ _ eq_refl) as [E | (_ & _ & _ & E)].
    + apply (f_equal (fun f => TagSettings f !! "AUTO_INCREMENT")) in E.
      vm_compute in E. discriminate E.
    + now rewrite E.
Defined.

(** X2. For a field of integer kind without explicit SQL type which the
    eligibility rule rejects when DataTypeOf consults it, DataTypeOf
    returns the plain column type of the kind, followed by the additional
    modifiers unless they are blank, and sets no tag. *)
Theorem DataTypeOf_integer_plain :
  forall (H : Host) (field : StructField) dataValue size additionalType,
    ParseFieldStructForDialect field = (dataValue, "", size, additionalType) ->
    isIntegerKind (reflect.Value_Kind dataValue) = true ->
    fieldCanAutoIncrement (keepAutoIncrementOnKey field) = false ->
    DataTypeOf field
    = (Returned (withModifiers (integerType (reflect.Value_Kind dataValue)) additionalType),
       keepAutoIncrementOnKey field).
Proof.
  intros H field dataValue size additionalType E Hk Hc.
  apply (DataTypeOf_inferred_type _ _ _ _ _ _ E (inferType_plain_integer _ _ _ Hk Hc)).
  destruct (integerType_head _ Hk) as (c & rest & ->). discriminate.
Qed.

Lemma DataTypeOf_integer_plain_witness :
  @DataTypeOf commonDialect sample.Score = (Returned "bigint", sample.Score).
Proof.
  exact (DataTypeOf_integer_plain commonDialect sample.Score _ 255 "" eq_refl eq_refl
           eq_refl).
Defined.

(** X3. A KEY column keeps its AUTO_INCREMENT setting: when the field is
    the primary key or carries an INDEX setting, the stripping step changes
    nothing, and a setting AUTO_INCREMENT present before the call is
    present after it, with its value or with the value "AUTO_INCREMENT". *)
Theorem DataTypeOf_key_keeps_auto_increment :
  forall (H : Host) (field : StructField) (value : string),
    IsPrimaryKey field = true \/ is_Some (TagSettings field !! "INDEX") ->
    TagSettings field !! "AUTO_INCREMENT" = Some value ->
    keepAutoIncrementOnKey field = field
    /\ (TagSettings (snd (DataTypeOf field)) !! "AUTO_INCREMENT" = Some value
        \/ TagSettings (snd (DataTypeOf field)) !! "AUTO_INCREMENT" = Some "AUTO_INCREMENT").
Proof.
  intros H field value Hkey Hv.
  assert (Hk := keepAutoIncrementOnKey_key field Hkey). split; [exact Hk |].
  destruct (ParseFieldStructForDialect field) as [[[dataValue sqlType] size] additionalType]
    eqn:E.
  destruct (DataTypeOf_field_cases _ _ _ _ _ E) as [-> | (_ & _ & _ & ->)].
  - left. now rewrite Hk.
  - right. simpl. apply lookup_insert_eq.
Qed.

Lemma DataTypeOf_key_keeps_auto_increment_witness :
  TagSettings (snd (@DataTypeOf commonDialect sample.IndexedSeq)) !! "AUTO_INCREMENT"
  = Some "AUTO_INCREMENT".
Proof.
  destruct (DataTypeOf_key_keeps_auto_increment commonDialect sample.IndexedSeq
              "AUTO_INCREMENT" (or_intror (ex_intro _ "INDEX" eq_refl)) eq_refl)
    as (_ & [E | E]); exact E.
Defined.

(** X4. For a field without explicit SQL type whose value is a byte array
    or a byte slice, DataTypeOf returns "varbinary(<size>)" when
    0 < size < 65532 and "longblob" otherwise, followed by the additional
    modifiers unless they are blank; the field is left as the stripping
    step made it. *)
Theorem DataTypeOf_bytes :
  forall (H : Host) (field : StructField) dataValue size additionalType,
    ParseFieldStructForDialect field = (dataValue, "", size, additionalType) ->
    IsByteArrayOrSlice dataValue = true ->
    DataTypeOf field
    = (Returned
         (withModifiers
            (if (0 <? size) && (size <? 65532) then "varbinary(" +:+ fmt.itoa size +:+ ")"
             else "longblob") additionalType),
       keepAutoIncrementOnKey field).
Proof.
  intros H field dataValue size additionalType E Hb.
  apply (DataTypeOf_inferred_type _ _ _ _ _ _ E (inferType_bytes _ _ _ Hb)).
  destruct ((0 <? size) && (size <? 65532)); discriminate.
Qed.

Lemma DataTypeOf_bytes_witness :
  fst (@DataTypeOf commonDialect sample.Hash) = Returned "varbinary(20) NOT NULL".
Proof.
  now rewrite (DataTypeOf_bytes commonDialect sample.Hash _ 20 "NOT NULL" eq_refl eq_refl).
Defined.

(** X5. For a field without explicit SQL type whose value is a
    time.Time, DataTypeOf returns DATETIME with the precision of the
    PRECISION setting in parentheses, if there is one, and with NULL
    unless the field has a NOT NULL setting or is the primary key,
    followed by the additional modifiers unless they are blank; the
    declared size plays no part. *)
Theorem DataTypeOf_time :
  forall (H : Host) (field : StructField) dataValue size additionalType,
    ParseFieldStructForDialect field = (dataValue, "", size, additionalType) ->
    reflect.Value_Kind dataValue = reflect.Struct ->
    reflect.isTime dataValue = true ->
    DataTypeOf field
    = (Returned (withModifiers (dateTimeType field) additionalType),
       keepAutoIncrementOnKey field).
Proof.
  intros H field dataValue size additionalType E Ek Et.
  apply (DataTypeOf_inferred_type _ _ _ _ _ _ E (inferType_time _ _ _ Ek Et)).
  discriminate.
Qed.

Lemma DataTypeOf_time_witness :
  fst (@DataTypeOf commonDialect sample.CreatedAt) = Returned "DATETIME(3) NULL".
Proof.
  now rewrite (DataTypeOf_time commonDialect sample.CreatedAt _ 255 "" eq_refl eq_refl
                 eq_refl).
Defined.

(** X6. An explicit SQL type is taken as it is, for every kind and size:
    the call does not panic, even for a value the inference has no type
    for, the returned string begins with the explicit type and is the
    explicit type when the additional modifiers are blank, and the
    inference sets no tag. *)
Theorem DataTypeOf_explicit_type :
  forall (H : Host) (field : StructField) dataValue sqlType size additionalType,
    ParseFieldStructForDialect field = (dataValue, sqlType, size, additionalType) ->
    sqlType <> "" ->
    exists s,
      DataTypeOf field = (Returned s, keepAutoIncrementOnKey field)
      /\ String.prefix sqlType s = true
      /\ (strings.TrimSpace additionalType = "" -> s = sqlType)
      /\ (strings.TrimSpace additionalType <> "" -> s = sqlType +:+ " " +:+ additionalType).
Proof.
  intros H field dataValue sqlType size additionalType E Hne.
  exists (withModifiers sqlType additionalType).
  split; [now apply (DataTypeOf_explicit _ _ _ _ _ E) |].
  split; [apply withModifiers_prefix |].
  unfold withModifiers. split; intros Hb.
  - now rewrite Hb.
  - apply String.eqb_neq in Hb. now rewrite Hb.
Qed.

Lemma DataTypeOf_explicit_type_witness :
  fst (@DataTypeOf commonDialect sample.Ratio) = Returned "decimal(10,2)".
Proof.
  destruct (DataTypeOf_explicit_type commonDialect sample.Ratio _ "decimal(10,2)" 255 ""
              eq_refl ltac:(discriminate)) as (s & E & _ & Hblank & _).
  rewrite E. cbn [fst]. f_equal. now apply Hblank.
Defined.

(** X7. DataTypeOf never returns the empty string: a call that returns
    gives a type of at least one character. *)
Theorem DataTypeOf_returns_a_type :
  forall (H : Host) (field : StructField) (s : string),
    fst (DataTypeOf field) = Returned s -> s <> "".
Proof.
  intros H field s R.
  destruct (ParseFieldStructForDialect field) as [[[dataValue sqlType] size] additionalType]
    eqn:E.
  destruct (String.eqb_spec sqlType "") as [-> | Hne].
  - rewrite (DataTypeOf_inferred _ _ _ _ E) in R. cbn [fst] in R.
    destruct (String.eqb_spec (fst (inferType dataValue size
                                      (keepAutoIncrementOnKey field))) "") as [_ | Hi];
      [discriminate R |].
    injection R as <-. now apply withModifiers_nonempty.
  - rewrite (DataTypeOf_explicit _ _ _ _ _ E Hne) in R. injection R as <-.
    now apply withModifiers_nonempty.
Qed.

Lemma DataTypeOf_returns_a_type_witness : "varchar(100)" <> "".
Proof.
  apply (DataTypeOf_returns_a_type commonDialect sample.Title). reflexivity.
Defined.

(** ** Calling DataTypeOf again *)

Section idempotence.

Context `{Host}.

Lemma sameButAutoIncrement_keep field :
  sameButAutoIncrement (keepAutoIncrementOnKey field) field.
Proof.
  destruct (keepAutoIncrementOnKey_frame field) as (Kn & Kp & Ks & Kt & _).
  repeat split; assumption.
Qed.

Lemma sameButAutoIncrement_set field g value :
  sameButAutoIncrement field g ->
  sameButAutoIncrement (TagSettingsSet field "AUTO_INCREMENT" value) g.
Proof.
  intros (Sn & Sp & Ss & St). repeat split; simpl; try assumption.
  intros k Hk. rewrite lookup_insert_ne by congruence. now apply St.
Qed.

(** DataTypeOf reads the field through the field-struct parsing and
    through the stripping step only. *)
Lemma DataTypeOf_ext (f g : StructField) :
  ParseFieldStructForDialect f = ParseFieldStructForDialect g ->
  keepAutoIncrementOnKey f = keepAutoIncrementOnKey g ->
  DataTypeOf f = DataTypeOf g.
Proof. intros Ep Ek. unfold DataTypeOf. now rewrite Ep, Ek. Qed.

Lemma TagSettingsSet_twice field value :
  TagSettingsSet (TagSettingsSet field "AUTO_INCREMENT" value) "AUTO_INCREMENT" value
  = TagSettingsSet field "AUTO_INCREMENT" value.
Proof. unfold TagSettingsSet. simpl. now rewrite insert_insert_eq. Qed.

Lemma TagSettingsDelete_set field value :
  TagSettings field !! "AUTO_INCREMENT" = None ->
  TagSettingsDelete (TagSettingsSet field "AUTO_INCREMENT" value) "AUTO_INCREMENT" = field.
Proof.
  intros Hno. destruct field as [n p t s]. unfold TagSettingsDelete, TagSettingsSet.
  simpl in *. now rewrite delete_insert_eq, delete_id.
Qed.

End idempotence.

(** The field-struct parsing of the base dialect of this file does not
    read the AUTO_INCREMENT setting. *)
Lemma ParseFieldStruct_sameButAutoIncrement (f g : StructField) :
  sameButAutoIncrement f g -> common.ParseFieldStruct f = common.ParseFieldStruct g.
Proof.
  intros (_ & _ & Ss & St).
  unfold common.ParseFieldStruct, common.setting, TagSettingsGet.
  now rewrite Ss, !St by discriminate.
Qed.

(** Its eligibility rule accepts a field whose setting is "AUTO_INCREMENT". *)
Lemma canAutoIncrement_set (f : StructField) :
  common.canAutoIncrement f = true ->
  common.canAutoIncrement (TagSettingsSet f "AUTO_INCREMENT" "AUTO_INCREMENT") = true.
Proof.
  intros _. unfold common.canAutoIncrement, TagSettingsGet, TagSettingsSet. simpl.
  now rewrite lookup_insert_eq.
Qed.

(** X8. DataTypeOf is idempotent on the field it changes: when the
    field-struct parsing does not read the AUTO_INCREMENT setting, and the
    eligibility rule still accepts a field it accepted once the setting is
    "AUTO_INCREMENT", a second call on the field the first call left
    returns the same type, or panics with the same message, and leaves
    the field as it is. *)
Theorem DataTypeOf_idempotent :
  forall (H : Host) (field : StructField),
    (forall f g, sameButAutoIncrement f g ->
                 ParseFieldStructForDialect f = ParseFieldStructForDialect g) ->
    (forall f, fieldCanAutoIncrement f = true ->
               fieldCanAutoIncrement (TagSettingsSet f "AUTO_INCREMENT" "AUTO_INCREMENT")
               = true) ->
    DataTypeOf (snd (DataTypeOf field)) = DataTypeOf field.
Proof.
  intros H field Hparse Hrule.
  destruct (ParseFieldStructForDialect field) as [[[dataValue sqlType] size] additionalType]
    eqn:E.
  destruct (DataTypeOf_field_cases _ _ _ _ _ E) as [-> | (-> & Hk & Hc & R)].
  - apply DataTypeOf_ext.
    + apply Hparse, sameButAutoIncrement_keep.
    + apply keepAutoIncrementOnKey_idempotent.
  - rewrite R. cbn [snd].
    set (g := keepAutoIncrementOnKey field) in *.
    set (f1 := TagSettingsSet g "AUTO_INCREMENT" "AUTO_INCREMENT").
    assert (E1 : ParseFieldStructForDialect f1 = (dataValue, "", size, additionalType)).
    { rewrite <- E. apply Hparse. apply sameButAutoIncrement_set.
      apply sameButAutoIncrement_keep. }
    assert (Hne : integerType (reflect.Value_Kind dataValue) +:+ " AUTO_INCREMENT" <> "").
    { destruct (integerType_head _ Hk) as (c & rest & ->). discriminate. }
    destruct (keepAutoIncrementOnKey_cases f1) as [Ek | (Hpk & Hidx & Ek)].
    + apply (DataTypeOf_inferred_type _ _ _ _ _ _ E1); [| exact Hne].
      rewrite Ek, (inferType_integer _ _ _ Hk (Hrule g Hc)).
      unfold f1. now rewrite TagSettingsSet_twice.
    + apply (DataTypeOf_inferred_type _ _ _ _ _ _ E1); [| exact Hne].
      assert (Hno : TagSettings g !! "AUTO_INCREMENT" = None).
      { destruct (keepAutoIncrementOnKey_frame field) as (_ & Kp & _ & Kt & _).
        apply keepAutoIncrementOnKey_strips.
        - rewrite <- Kp. exact Hpk.
        - rewrite <- Kt by discriminate. unfold f1 in Hidx. simpl in Hidx.
          now rewrite lookup_insert_ne in Hidx by discriminate. }
      rewrite Ek. unfold f1. rewrite (TagSettingsDelete_set _ _ Hno).
      apply (inferType_integer _ _ _ Hk Hc).
Qed.

Lemma DataTypeOf_idempotent_witness :
  @DataTypeOf commonDialect (snd (@DataTypeOf commonDialect sample.ID))
  = (Returned "int unsigned AUTO_INCREMENT",
     TagSettingsSet sample.ID "AUTO_INCREMENT" "AUTO_INCREMENT").
Proof.
  rewrite (DataTypeOf_idempotent commonDialect sample.ID
             ParseFieldStruct_sameButAutoIncrement canAutoIncrement_set).
  reflexivity.
Defined.

(** ** The fragment of LimitAndOffsetSQL *)

Section fragments.

Lemma prefix_refl (a : string) : String.prefix a a = true.
Proof.
  induction a as [| c a IH]; simpl; [reflexivity |].
  destruct (ascii_dec c c); [exact IH | congruence].
Qed.

Lemma prefix_append (a b : string) : String.prefix a (a +:+ b) = true.
Proof.
  induction a as [| c a IH]; simpl; [now destruct b |].
  destruct (ascii_dec c c); [exact IH | congruence].
Qed.

Lemma limit_lacks_offset n :
  strings.Contains (" LIMIT " +:+ fmt.itoa n) " OFFSET " = false.
Proof.
  apply (lacks_by_byte "O"); [reflexivity |].
  rewrite occurs_append, occurs_itoa by reflexivity. reflexivity.
Qed.

End fragments.

(** X9. LimitAndOffsetSQL never returns an error together with a
    fragment; a fragment that is not empty begins with " LIMIT " and the
    parsed limit, which is not negative; and " OFFSET " occurs in the
    fragment only when an offset was given and parsed to a number that is
    not negative: no OFFSET without LIMIT, and none for an absent or
    negative offset. *)
Theorem LimitAndOffsetSQL_fragment_or_error :
  forall (H : Host) (limit offset : option any),
    (is_Some (snd (LimitAndOffsetSQL limit offset)) ->
     fst (LimitAndOffsetSQL limit offset) = "")
    /\ (fst (LimitAndOffsetSQL limit offset) <> "" ->
        exists l n, limit = Some l /\ parseInt l = inl n /\ 0 <= n
                    /\ String.prefix (" LIMIT " +:+ fmt.itoa n)
                         (fst (LimitAndOffsetSQL limit offset)) = true)
    /\ (strings.Contains (fst (LimitAndOffsetSQL limit offset)) " OFFSET " = true ->
        exists o m, offset = Some o /\ parseInt o = inl m /\ 0 <= m).
Proof.
  intros H limit offset. unfold LimitAndOffsetSQL.
  destruct limit as [l |]; cbn [fst snd].
  2: { split; [reflexivity | split; [congruence | discriminate]]. }
  destruct (parseInt l) as [n | e] eqn:El; cbn [fst snd].
  2: { split; [reflexivity | split; [congruence | discriminate]]. }
  destruct (Z.leb_spec 0 n) as [Hn | Hn]; cbn [fst snd].
  2: { split; [reflexivity | split; [congruence | discriminate]]. }
  destruct offset as [o |]; cbn [fst snd].
  2: { split; [intros [e He]; discriminate He | split].
       - intros _. exists l, n. repeat split; auto. apply prefix_refl.
       - intros Hc. change ("" +:+ " LIMIT " +:+ fmt.itoa n)
                      with (" LIMIT " +:+ fmt.itoa n) in Hc.
         rewrite limit_lacks_offset in Hc. discriminate Hc. }
  destruct (parseInt o) as [m | e] eqn:Eo; cbn [fst snd].
  2: { split; [reflexivity | split; [congruence | discriminate]]. }
  destruct (Z.leb_spec 0 m) as [Hm | Hm]; cbn [fst snd].
  - split; [intros [e He]; discriminate He | split].
    + intros _. exists l, n. repeat split; auto.
      change (("" +:+ " LIMIT " +:+ fmt.itoa n) +:+ " OFFSET " +:+ fmt.itoa m)
        with ((" LIMIT " +:+ fmt.itoa n) +:+ " OFFSET " +:+ fmt.itoa m).
      apply prefix_append.
    + intros _. exists o, m. repeat split; auto.
  - split; [intros [e He]; discriminate He | split].
    + intros _. exists l, n. repeat split; auto. apply prefix_refl.
    + intros Hc. change ("" +:+ " LIMIT " +:+ fmt.itoa n)
                   with (" LIMIT " +:+ fmt.itoa n) in Hc.
      rewrite limit_lacks_offset in Hc. discriminate Hc.
Qed.

Lemma LimitAndOffsetSQL_fragment_or_error_witness :
  fst (@LimitAndOffsetSQL commonDialect (Some (AnyInt 10)) (Some (AnyString "x"))) = ""
  /\ exists o m, Some (AnyInt 5) = Some o /\ common.parse o = inl m /\ 0 <= m.
Proof.
  destruct (LimitAndOffsetSQL_fragment_or_error commonDialect (Some (AnyInt 10))
              (Some (AnyString "x"))) as (Herr & _).
  destruct (LimitAndOffsetSQL_fragment_or_error commonDialect (Some (AnyInt 10))
              (Some (AnyInt 5))) as (_ & _ & Hoff).
  split.
  - apply Herr. eexists. reflexivity.
  - apply Hoff. reflexivity.
Defined.

(** ** What NormalizeIndexAndColumn keeps *)

(** X10. NormalizeIndexAndColumn moves a suffix from the index name to
    the column name and loses nothing: the index name it was given is the
    index name it returns followed by a suffix, the column it returns is
    the column it was given followed by the same suffix, and the suffix is
    empty or a parenthesised run of at least one decimal digit.  The
    returned index name is empty only for an empty index name. *)
Theorem NormalizeIndexAndColumn_moves_suffix :
  forall indexName columnName : string,
    exists suffix,
      indexName = fst (NormalizeIndexAndColumn indexName columnName) +:+ suffix
      /\ snd (NormalizeIndexAndColumn indexName columnName) = columnName +:+ suffix
      /\ (suffix = ""
          \/ exists digits, suffix = "(" +:+ digits +:+ ")" /\ digits <> ""
                            /\ allOf regexp.isDigit digits = true)
      /\ (fst (NormalizeIndexAndColumn indexName columnName) = "" <-> indexName = "").
Proof.
  intros indexName columnName. unfold NormalizeIndexAndColumn.
  destruct (FindStringSubmatch_cases indexName)
    as [-> | (prefix & digits & (E & Hp & _ & Hd & Hdig) & ->)]; cbn [fst snd].
  - exists "". rewrite !append_nil_r. repeat split; auto.
  - exists ("(" +:+ digits +:+ ")"). split; [exact E | split; [reflexivity | split]].
    + right. exists digits. repeat split; assumption.
    + split; [congruence |]. intros E0. rewrite E0 in E.
      destruct prefix; [congruence | discriminate E].
Qed.

(** ** The namespace in the existence checks *)

(** X11. HasColumn and HasForeignKey do not look at the tablespace: two
    table names that resolve to the same bare table name get the same
    answer.  HasTable and HasIndex answer alike for table names that
    resolve to the same tablespace and table. *)
Theorem existence_checks_namespace :
  forall (H : Host) (db : SQLCommon) (table1 table2 name : string),
    snd (currentDatabaseAndTable CurrentDatabase table1)
    = snd (currentDatabaseAndTable CurrentDatabase table2) ->
    HasColumn db table1 name = HasColumn db table2 name
    /\ HasForeignKey db table1 name = HasForeignKey db table2 name
    /\ (fst (currentDatabaseAndTable CurrentDatabase table1)
        = fst (currentDatabaseAndTable CurrentDatabase table2) ->
        HasTable db table1 = HasTable db table2
        /\ HasIndex db table1 name = HasIndex db table2 name).
Proof.
  intros H db table1 table2 name Et.
  rewrite !HasColumn_row, !HasForeignKey_row, !HasTable_row, !HasIndex_row, Et.
  split; [reflexivity | split; [reflexivity |]].
  intros ->. split; reflexivity.
Qed.

Lemma existence_checks_namespace_witness :
  @HasColumn commonDialect sample.columns "archive.users" "name" = true.
Proof.
  rewrite (proj1 (existence_checks_namespace commonDialect sample.columns
                    "archive.users" "users" "name" eq_refl)).
  reflexivity.
Defined.

(** ** Quoting *)

Section quoting.

Lemma substring_append (a b : string) : substring 0 (String.length a) (a +:+ b) = a.
Proof. induction a as [| c a IH]; simpl; [now destruct b | now rewrite IH]. Qed.

Lemma length_append (a b : string) :
  String.length (a +:+ b) = (String.length a + String.length b)%nat.
Proof. induction a as [| c a IH]; simpl; [reflexivity | now rewrite IH]. Qed.

End quoting.

(** X12. Quote puts the key between two backticks and changes nothing
    in it: the key is read back from the quoted name, which is two bytes
    longer, and different keys have different quoted names. *)
Theorem Quote_round_trip :
  forall key : string,
    substring 1 (String.length key) (Quote key) = key
    /\ String.length (Quote key) = (String.length key + 2)%nat
    /\ (forall key', Quote key = Quote key' -> key = key').
Proof.
  assert (back : forall key, substring 1 (String.length key) (Quote key) = key).
  { intros key. unfold Quote. simpl. apply substring_append. }
  assert (len : forall key, String.length (Quote key) = (String.length key + 2)%nat).
  { intros key. unfold Quote. simpl. rewrite length_append. simpl. lia. }
  intros key. split; [apply back | split; [apply len |]].
  intros key' E. assert (El := len key). rewrite E, len in El.
  rewrite <- (back key), <- (back key'), E. f_equal. lia.
Qed.

(** ** The shortened key name *)

Section shortened.

Context `{Host}.

Lemma hexdigit_isLowerHex n : (n < 16)%N -> isLowerHex (fmt.hexdigit n) = true.
Proof.
  intros Hn. unfold isLowerHex, fmt.hexdigit, utf8.byte, utf8.within.
  apply orb_true_iff.
  destruct (N.ltb_spec n 10); rewrite N_ascii_embedding by lia; [left | right];
    apply andb_true_iff; split; apply Z.leb_le; lia.
Qed.

Lemma hex_isLowerHex bs :
  Forall (fun b => 0 <= b < 256) bs -> allOf isLowerHex (fmt.hex bs) = true.
Proof.
  unfold allOf. induction 1 as [| b bs Hb _ IH]; [reflexivity |].
  cbn [fmt.hex list_ascii_of_string forallb].
  rewrite !hexdigit_isLowerHex, IH; [reflexivity | |];
    Z.to_euclidean_division_equations; lia.
Qed.

Lemma hex_length bs : String.length (fmt.hex bs) = (2 * length bs)%nat.
Proof. induction bs as [| b bs IH]; simpl; [reflexivity | rewrite IH; lia]. Qed.

Lemma RuneCount_written rs : utf8.RuneCountInString (utf8.of_runes rs) = Z.of_nat (length rs).
Proof.
  rewrite <- (append_nil_r (utf8.of_runes rs)), RuneCount_of_runes.
  change (utf8.RuneCountInString "") with 0. lia.
Qed.

End shortened.

(** X13. With at least one field, BuildKeyName returns a name of at most
    64 code points: the name of the base dialect when that has at most 64,
    and otherwise a prefix of at most 24 code points followed by the
    digest of the name of the base dialect, 40 lower-case hexadecimal
    digits. *)
Theorem BuildKeyName_bounded :
  forall (H : Host) (kind tableName field : string) (fields : list string),
    let keyName := commonDialect_BuildKeyName kind tableName (field :: fields) in
    exists s,
      BuildKeyName kind tableName (field :: fields) = Returned s
      /\ utf8.RuneCountInString s <= 64
      /\ (utf8.RuneCountInString keyName <= 64 -> s = keyName)
      /\ (64 < utf8.RuneCountInString keyName ->
          exists prefix digest,
            s = prefix +:+ digest
            /\ utf8.RuneCountInString prefix <= 24
            /\ digest = fmt.hex (sha1.Sum (bytes_of keyName))
            /\ String.length digest = 40%nat
            /\ allOf isLowerHex digest = true).
Proof.
  intros H kind tableName field fields keyName.
  destruct (Z.le_gt_cases (utf8.RuneCountInString keyName) 64) as [Hshort | Hlong].
  - exists keyName. split; [now apply BuildKeyName_short |].
    split; [exact Hshort | split; [reflexivity | lia]].
  - eexists. split; [now apply BuildKeyName_long |].
    split; [apply shortened_bound | split; [lia |]].
    intros _. eexists _, _. split; [reflexivity |].
    split; [| split; [reflexivity | split]].
    + rewrite RuneCount_written.
      assert (Hl := firstn_le_length 24
                      (utf8.runes (keyNameRegex_ReplaceAllString field "_"))). lia.
    + now rewrite hex_length, Sum_length.
    + apply hex_isLowerHex, Sum_range.
Qed.

Lemma BuildKeyName_bounded_witness :
  exists prefix digest,
    "first_namebef243f10d8855bf18cc8a9e6cba7c6e81a0bb9c" = prefix +:+ digest
    /\ utf8.RuneCountInString prefix <= 24
    /\ digest = fmt.hex (sha1.Sum (bytes_of (common.KeyName "uix" sample.longTable
                                               ["first name"; "last name"])))
    /\ String.length digest = 40%nat
    /\ allOf isLowerHex digest = true.
Proof.
  destruct (BuildKeyName_bounded commonDialect "uix" sample.longTable "first name"
              ["last name"]) as (s & R & _ & _ & Hlong).
  vm_compute in R. injection R as <-.
  apply Hlong. reflexivity.
Defined.

(** ** Reading the shortened key name back *)

Section decoding.

Ltac dlia := Z.to_euclidean_division_equations; lia.

Ltac compare_all :=
  repeat match goal with
         | |- context [?a <? ?b] => destruct (Z.ltb_spec a b); try lia
         | |- context [?a =? ?b] => destruct (Z.eqb_spec a b); try lia
         end.

Lemma land_ones_mod x n : 0 <= n -> Z.land x (Z.ones n) = x mod 2 ^ n.
Proof. intros Hn. now apply Z.land_ones. Qed.

Lemma rune2_value b0 b1 : utf8.rune2 b0 b1 = (b0 mod 32) * 64 + b1 mod 64.
Proof.
  unfold utf8.rune2.
  change 0x1F with (Z.ones 5). change 0x3F with (Z.ones 6).
  rewrite !Z.land_ones by lia. rewrite Z.shiftl_mul_pow2 by lia.
  change (2 ^ 5) with 32. change (2 ^ 6) with 64.
  change ((b0 mod 32) * 64) with ((b0 mod 32) * 2 ^ 6).
  apply lor_disjoint; [lia |]. change (2 ^ 6) with 64. dlia.
Qed.

Lemma rune3_value b0 b1 b2 :
  utf8.rune3 b0 b1 b2 = (b0 mod 16) * 4096 + (b1 mod 64) * 64 + b2 mod 64.
Proof.
  unfold utf8.rune3.
  change 0x0F with (Z.ones 4). change 0x3F with (Z.ones 6).
  rewrite !Z.land_ones by lia. rewrite !Z.shiftl_mul_pow2 by lia.
  change (2 ^ 4) with 16. change (2 ^ 6) with 64. change (2 ^ 12) with 4096.
  replace (Z.lor ((b0 mod 16) * 4096) ((b1 mod 64) * 64))
    with (((b0 mod 16) * 64 + b1 mod 64) * 2 ^ 6).
  - rewrite lor_disjoint; [change (2 ^ 6) with 64; lia | lia |].
    change (2 ^ 6) with 64. dlia.
  - change ((b0 mod 16) * 4096) with ((b0 mod 16) * 2 ^ 12).
    rewrite lor_disjoint; [change (2 ^ 6) with 64; change (2 ^ 12) with 4096; lia | lia |].
    change (2 ^ 12) with 4096. dlia.
Qed.

Lemma rune4_value b0 b1 b2 b3 :
  utf8.rune4 b0 b1 b2 b3
  = (b0 mod 8) * 262144 + (b1 mod 64) * 4096 + (b2 mod 64) * 64 + b3 mod 64.
Proof.
  unfold utf8.rune4.
  change 0x07 with (Z.ones 3). change 0x3F with (Z.ones 6).
  rewrite !Z.land_ones by lia. rewrite !Z.shiftl_mul_pow2 by lia.
  change (2 ^ 3) with 8. change (2 ^ 6) with 64. change (2 ^ 12) with 4096.
  change (2 ^ 18) with 262144.
  replace (Z.lor ((b0 mod 8) * 262144) ((b1 mod 64) * 4096))
    with (((b0 mod 8) * 64 + b1 mod 64) * 2 ^ 12).
  2: { change ((b0 mod 8) * 262144) with ((b0 mod 8) * 2 ^ 18).
       rewrite lor_disjoint;
         [change (2 ^ 12) with 4096; change (2 ^ 18) with 262144; lia | lia |].
       change (2 ^ 18) with 262144. dlia. }
  replace (Z.lor (((b0 mod 8) * 64 + b1 mod 64) * 2 ^ 12) ((b2 mod 64) * 64))
    with ((((b0 mod 8) * 64 + b1 mod 64) * 64 + b2 mod 64) * 2 ^ 6).
  2: { rewrite lor_disjoint; [change (2 ^ 6) with 64; change (2 ^ 12) with 4096; lia | lia |].
       change (2 ^ 12) with 4096. dlia. }
  rewrite lor_disjoint; [change (2 ^ 6) with 64; lia | lia |].
  change (2 ^ 6) with 64. dlia.
Qed.


Lemma chunks_2_value c0 c1 t :
  194 <= utf8.byte c0 <= 223 -> 128 <= utf8.byte c1 <= 191 ->
  utf8.chunks (String c0 (String c1 t))
  = (utf8.rune2 (utf8.byte c0) (utf8.byte c1), String c0 (utf8.one c1)) :: utf8.chunks t.
Proof.
  intros H0 H1. cbn [utf8.chunks]. rewrite (first_2 _ H0).
  change (utf8.within 128 191 (utf8.byte c1)) with (utf8.cont (utf8.byte c1)).
  rewrite (cont_true _ H1). reflexivity.
Qed.

Lemma chunks_3_value c0 c1 c2 t :
  224 <= utf8.byte c0 <= 239 -> 128 <= utf8.byte c1 <= 191 -> 128 <= utf8.byte c2 <= 191 ->
  (utf8.byte c0 = 224 -> 160 <= utf8.byte c1) ->
  (utf8.byte c0 = 237 -> utf8.byte c1 <= 159) ->
  utf8.chunks (String c0 (String c1 (String c2 t)))
  = (utf8.rune3 (utf8.byte c0) (utf8.byte c1) (utf8.byte c2),
     String c0 (String c1 (utf8.one c2))) :: utf8.chunks t.
Proof.
  intros H0 H1 H2 Hlo Hhi. cbn [utf8.chunks].
  destruct (first_3 _ _ H0 H1 Hlo Hhi) as (lo & hi & -> & ->).
  rewrite (cont_true _ H2). reflexivity.
Qed.

Lemma chunks_4_value c0 c1 c2 c3 t :
  240 <= utf8.byte c0 <= 244 -> 128 <= utf8.byte c1 <= 191 ->
  128 <= utf8.byte c2 <= 191 -> 128 <= utf8.byte c3 <= 191 ->
  (utf8.byte c0 = 240 -> 144 <= utf8.byte c1) ->
  (utf8.byte c0 = 244 -> utf8.byte c1 <= 143) ->
  utf8.chunks (String c0 (String c1 (String c2 (String c3 t))))
  = (utf8.rune4 (utf8.byte c0) (utf8.byte c1) (utf8.byte c2) (utf8.byte c3),
     String c0 (String c1 (String c2 (utf8.one c3)))) :: utf8.chunks t.
Proof.
  intros H0 H1 H2 H3 Hlo Hhi. cbn [utf8.chunks].
  destruct (first_4 _ _ H0 H1 Hlo Hhi) as (lo & hi & -> & ->).
  rewrite (cont_true _ H2), (cont_true _ H3). reflexivity.
Qed.

Lemma chunks_enc3_value r t :
  0x800 <= r <= 0xFFFF -> ~ 0xD800 <= r <= 0xDFFF ->
  utf8.chunks (utf8.enc3 r +:+ t) = (r, utf8.enc3 r) :: utf8.chunks t.
Proof.
  intros Hr Hs. unfold utf8.enc3, utf8.one. cbn [String.append].
  rewrite lead3_byte by lia. rewrite !cont_byte.
  rewrite Z.shiftr_div_pow2 by lia. change (2 ^ 6) with 64.
  rewrite chunks_3_value by (rewrite ?byte_chr; dlia).
  f_equal. f_equal. rewrite rune3_value, !byte_chr by dlia. dlia.
Qed.

Lemma written_scalar r : isScalar r = true -> written r = r.
Proof. intros Hr. unfold written. now rewrite Hr. Qed.

Lemma chunks_EncodeRune_value r t :
  utf8.chunks (utf8.EncodeRune r +:+ t) = (written r, utf8.EncodeRune r) :: utf8.chunks t.
Proof.
  unfold written, isScalar, utf8.EncodeRune, utf8.MaxRune.
  destruct (Z.leb_spec 0 r); destruct (Z.leb_spec r 0x7F); cbn [andb].
  - destruct (Z.leb_spec r 0x10FFFF); [| lia].
    destruct (Z.leb_spec 0xD800 r); [lia |]. cbn [andb negb].
    unfold utf8.one. cbn [String.append].
    rewrite chunks_ascii by (rewrite byte_chr; lia). now rewrite byte_chr by lia.
  - destruct (Z.leb_spec r 0x7FF).
    + destruct (Z.leb_spec r 0x10FFFF); [| lia].
      destruct (Z.leb_spec 0xD800 r); [lia |]. cbn [andb negb].
      unfold utf8.one. cbn [String.append].
      rewrite lead2_byte by lia. rewrite cont_byte.
      rewrite chunks_2_value by (rewrite byte_chr; dlia).
      f_equal. f_equal. rewrite rune2_value, !byte_chr by dlia. dlia.
    + destruct (Z.ltb_spec r 0); [lia |].
      destruct (Z.ltb_spec 0x10FFFF r); destruct (Z.leb_spec r 0x10FFFF); try lia;
        cbn [orb andb negb].
      * apply chunks_enc3_value; unfold utf8.RuneError; lia.
      * destruct (Z.leb_spec 0xD800 r); destruct (Z.leb_spec r 0xDFFF); cbn [andb negb];
          try (apply chunks_enc3_value; unfold utf8.RuneError; lia);
          (destruct (Z.leb_spec r 0xFFFF); [apply chunks_enc3_value; lia |]); try lia;
          unfold utf8.one; cbn [String.append];
          rewrite lead4_byte by lia; rewrite !cont_byte;
          rewrite !Z.shiftr_div_pow2 by lia;
          change (2 ^ 12) with 4096; change (2 ^ 6) with 64;
          rewrite chunks_4_value by (rewrite ?byte_chr; dlia);
          f_equal; f_equal; rewrite rune4_value, !byte_chr by dlia; dlia.
  - destruct (Z.ltb_spec r 0); [| lia]. cbn [orb andb negb].
    apply chunks_enc3_value; unfold utf8.RuneError; lia.
  - lia.
Qed.

Lemma runes_of_runes rs t :
  utf8.runes (utf8.of_runes rs +:+ t) = map written rs ++ utf8.runes t.
Proof.
  unfold utf8.runes. induction rs as [| r rs IH]; cbn [utf8.of_runes map]; [reflexivity |].
  rewrite append_assoc, chunks_EncodeRune_value. cbn [map fst app]. now rewrite IH.
Qed.


Lemma first_ascii_inv b : utf8.first b = utf8.ascii1 -> b < 128.
Proof. unfold utf8.first. compare_all; intros E; (lia || discriminate E). Qed.

Lemma first_multi_inv b size lo hi :
  utf8.first b = utf8.multi size lo hi ->
  (size = 2%nat /\ 194 <= b <= 223 /\ lo = 128 /\ hi = 191)
  \/ (size = 3%nat /\ 224 <= b <= 239 /\ 128 <= lo /\ hi <= 191
      /\ (b = 224 -> lo = 160) /\ (b = 237 -> hi = 159))
  \/ (size = 4%nat /\ 240 <= b <= 244 /\ 128 <= lo /\ hi <= 191
      /\ (b = 240 -> lo = 144) /\ (b = 244 -> hi = 143)).
Proof.
  unfold utf8.first.
  compare_all; intros E; try discriminate E; injection E as <- <- <-; lia.
Qed.

Lemma isScalar_intro r :
  0 <= r <= 0x10FFFF -> ~ 0xD800 <= r <= 0xDFFF -> isScalar r = true.
Proof. intros Hr Hs. unfold isScalar, utf8.MaxRune. lia. Qed.

Lemma within_inv lo hi b : utf8.within lo hi b = true -> lo <= b <= hi.
Proof. unfold utf8.within. lia. Qed.

Lemma chunks_scalar n :
  forall s, (String.length s <= n)%nat ->
            Forall (fun c => isScalar (fst c) = true) (utf8.chunks s).
Proof.
  induction n as [| n IH]; intros s Hl.
  - destruct s; [constructor | simpl in Hl; lia].
  - destruct s as [| c0 s1]; [constructor |]. simpl in Hl. cbn [utf8.chunks].
    assert (IH1 : Forall (fun c => isScalar (fst c) = true) (utf8.chunks s1))
      by (apply IH; lia).
    assert (Hbad : Forall (fun c => isScalar (fst c) = true)
                     ((utf8.RuneError, utf8.one c0) :: utf8.chunks s1))
      by (constructor; [reflexivity | exact IH1]).
    assert (R0 := byte_range c0).
    destruct (utf8.first (utf8.byte c0)) as [| | size lo hi] eqn:Hf; [| exact Hbad |].
    { constructor; [| exact IH1]. cbn [fst]. apply first_ascii_inv in Hf.
      apply isScalar_intro; lia. }
    destruct s1 as [| c1 s2]; [exact Hbad |].
    destruct (utf8.within lo hi (utf8.byte c1)) eqn:Hw; cbn [negb]; [| exact Hbad].
    apply within_inv in Hw. simpl in Hl.
    destruct (first_multi_inv _ _ _ _ Hf)
      as [(-> & Hb & -> & ->) | [(-> & Hb & Hlo & Hhi & H224 & H237)
                                | (-> & Hb & Hlo & Hhi & H240 & H244)]];
      cbn [Nat.leb].
    + constructor; [| apply IH; lia]. cbn [fst]. rewrite rune2_value.
      apply isScalar_intro; dlia.
    + destruct s2 as [| c2 s3]; [exact Hbad |].
      destruct (utf8.cont (utf8.byte c2)) eqn:Hc2; cbn [negb]; [| exact Hbad].
      apply within_inv in Hc2. simpl in Hl.
      constructor; [| apply IH; lia]. cbn [fst]. rewrite rune3_value.
      apply isScalar_intro; dlia.
    + destruct s2 as [| c2 s3]; [exact Hbad |].
      destruct (utf8.cont (utf8.byte c2)) eqn:Hc2; cbn [negb]; [| exact Hbad].
      apply within_inv in Hc2.
      destruct s3 as [| c3 s4]; [exact Hbad |].
      destruct (utf8.cont (utf8.byte c3)) eqn:Hc3; cbn [negb]; [| exact Hbad].
      apply within_inv in Hc3. simpl in Hl.
      constructor; [| apply IH; lia]. cbn [fst]. rewrite rune4_value.
      apply isScalar_intro; dlia.
Qed.

Lemma runes_scalar s : Forall (fun r => isScalar r = true) (utf8.runes s).
Proof.
  unfold utf8.runes.
  induction (chunks_scalar (String.length s) s (le_n _)) as [| c l Hc _ IH];
    constructor; assumption.
Qed.

Lemma map_written rs : Forall (fun r => isScalar r = true) rs -> map written rs = rs.
Proof.
  induction 1 as [| r rs Hr _ IH]; simpl; [reflexivity |].
  now rewrite (written_scalar r Hr), IH.
Qed.

Lemma runes_hex bs :
  Forall (fun b => 0 <= b < 256) bs ->
  utf8.runes (fmt.hex bs) = map utf8.byte (list_ascii_of_string (fmt.hex bs)).
Proof.
  unfold utf8.runes. induction 1 as [| b bs Hb _ IH]; [reflexivity |].
  cbn [fmt.hex]. rewrite !chunks_ascii by (apply hexdigit_byte; dlia).
  cbn [map fst list_ascii_of_string]. now rewrite IH.
Qed.

Lemma of_runes_app rs1 rs2 :
  utf8.of_runes (rs1 ++ rs2) = utf8.of_runes rs1 +:+ utf8.of_runes rs2.
Proof.
  induction rs1 as [| r rs1 IH]; simpl; [reflexivity |].
  now rewrite IH, append_assoc.
Qed.

Lemma of_runes_ascii s :
  allOf (fun c => utf8.byte c <? 128) s = true ->
  utf8.of_runes (map utf8.byte (list_ascii_of_string s)) = s.
Proof.
  unfold allOf. induction s as [| c s IH]; simpl; [reflexivity |].
  intros Hall. apply andb_true_iff in Hall. destruct Hall as [Hc Hall].
  rewrite (IH Hall). unfold utf8.EncodeRune.
  assert (R := byte_range c).
  destruct (Z.leb_spec 0 (utf8.byte c)); [| lia].
  destruct (Z.leb_spec (utf8.byte c) 0x7F); [| lia].
  cbn [andb]. unfold utf8.one. now rewrite chr_byte.
Qed.

Lemma hex_ascii bs :
  Forall (fun b => 0 <= b < 256) bs ->
  allOf (fun c => utf8.byte c <? 128) (fmt.hex bs) = true.
Proof.
  unfold allOf. induction 1 as [| b bs Hb _ IH]; [reflexivity |].
  cbn [fmt.hex list_ascii_of_string forallb]. rewrite IH.
  assert (H1 := hexdigit_byte (Z.to_N (b / 16)) ltac:(dlia)).
  assert (H2 := hexdigit_byte (Z.to_N (b mod 16)) ltac:(dlia)).
  lia.
Qed.

End decoding.

(** X14. The prefix of a shortened key name is cut between characters:
    read as runes, the name BuildKeyName returns for a name of the base
    dialect of more than 64 code points is the first 24 runes of the first
    field, its disallowed characters replaced, followed by the 40 digits
    of the digest, and the name is well-formed UTF-8, whatever bytes the
    field name holds. *)
Theorem BuildKeyName_keeps_whole_runes :
  forall (H : Host) (kind tableName field : string) (fields : list string),
    let keyName := commonDialect_BuildKeyName kind tableName (field :: fields) in
    64 < utf8.RuneCountInString keyName ->
    exists s,
      BuildKeyName kind tableName (field :: fields) = Returned s
      /\ utf8.runes s
         = firstn 24 (utf8.runes (keyNameRegex_ReplaceAllString field "_"))
             ++ map utf8.byte
                  (list_ascii_of_string (fmt.hex (sha1.Sum (bytes_of keyName))))
      /\ utf8.of_runes (utf8.runes s) = s.
Proof.
  intros H kind tableName field fields keyName Hlong.
  eexists. split; [now apply BuildKeyName_long |].
  fold keyName.
  set (rs := firstn 24 (utf8.runes (keyNameRegex_ReplaceAllString field "_"))).
  set (digest := fmt.hex (sha1.Sum (bytes_of keyName))).
  assert (Hrs : map written rs = rs).
  { apply map_written. apply Forall_take. apply runes_scalar. }
  assert (Hrunes : utf8.runes (utf8.of_runes rs +:+ digest)
                   = rs ++ map utf8.byte (list_ascii_of_string digest)).
  { rewrite runes_of_runes, Hrs. f_equal. apply runes_hex, Sum_range. }
  split; [exact Hrunes |].
  rewrite Hrunes, of_runes_app. f_equal.
  apply of_runes_ascii, hex_ascii, Sum_range.
Qed.

Lemma BuildKeyName_keeps_whole_runes_witness :
  utf8.runes "first_namebef243f10d8855bf18cc8a9e6cba7c6e81a0bb9c"
  = firstn 24 (utf8.runes "first_name")
      ++ map utf8.byte (list_ascii_of_string "bef243f10d8855bf18cc8a9e6cba7c6e81a0bb9c").
Proof.
  destruct (BuildKeyName_keeps_whole_runes commonDialect "uix" sample.longTable
              "first name" ["last name"] ltac:(reflexivity)) as (s & R & Hrunes & _).
  vm_compute in R. injection R as <-. rewrite Hrunes. vm_compute. reflexivity.
Defined.

(** ** The numbers the dialect prints *)

Section printing.

Ltac dlia := Z.to_euclidean_division_equations; lia.

Lemma size_nat_bound p : Z.pos p < 2 ^ Z.of_nat (Pos.size_nat p).
Proof.
  induction p as [p IH | p IH |]; cbn [Pos.size_nat].
  - rewrite Nat2Z.inj_succ, Z.pow_succ_r by lia. lia.
  - rewrite Nat2Z.inj_succ, Z.pow_succ_r by lia. lia.
  - reflexivity.
Qed.

Lemma digitsValue_digit n acc a :
  (n < 10)%N ->
  common.digitsValue (String (fmt.digit n) acc) a
  = common.digitsValue acc (10 * a + Z.of_N n).
Proof.
  intros Hn. cbn [common.digitsValue].
  rewrite (digit_isDigit n Hn), (digit_byte n Hn). f_equal. lia.
Qed.

Lemma digitsValue_digits fuel :
  forall n acc, Z.of_N n < 10 ^ Z.of_nat fuel -> (0 < fuel)%nat ->
    exists k, 0 <= k /\ forall a,
      common.digitsValue (fmt.digits fuel n acc) a
      = common.digitsValue acc (a * 10 ^ k + Z.of_N n).
Proof.
  induction fuel as [| fuel IH]; intros n acc Hn Hf; [lia |].
  cbn [fmt.digits].
  assert (Hmod : (n mod 10 < 10)%N) by (apply N.mod_lt; discriminate).
  destruct (N.eqb_spec (n / 10) 0) as [Hq | Hq].
  - exists 1. split; [lia |]. intros a. rewrite (digitsValue_digit _ _ _ Hmod).
    f_equal. assert (n mod 10 = n)%N by (rewrite (N.div_mod n 10) at 2; [| discriminate]; rewrite Hq; lia).
    lia.
  - rewrite Nat2Z.inj_succ, Z.pow_succ_r in Hn by lia.
    assert (Hq' : Z.of_N (n / 10) < 10 ^ Z.of_nat fuel).
    { rewrite N2Z.inj_div. apply Z.div_lt_upper_bound; lia. }
    assert (Hfuel : (0 < fuel)%nat).
    { destruct fuel; [| lia]. change (10 ^ Z.of_nat 0) with 1 in Hq'.
      clear -Hq Hq'. set (q := (n / 10)%N) in *. lia. }
    destruct (IH (n / 10)%N (String (fmt.digit (n mod 10)) acc) Hq' Hfuel) as (k & Hk & E).
    exists (k + 1). split; [lia |]. intros a.
    rewrite E, (digitsValue_digit _ _ _ Hmod). f_equal.
    rewrite Z.pow_add_r by lia. rewrite N2Z.inj_div, N2Z.inj_mod.
    change (Z.of_N 10) with 10. dlia.
Qed.

Lemma digitsValue_utoa n : common.digitsValue (fmt.utoa n) 0 = Some (Z.of_N n).
Proof.
  unfold fmt.utoa.
  destruct (digitsValue_digits (S (N.size_nat n)) n "") as (k & _ & E).
  - destruct n as [| p]; [reflexivity |]. cbn [N.size_nat].
    assert (Hp := size_nat_bound p).
    assert (2 ^ Z.of_nat (Pos.size_nat p) <= 10 ^ Z.of_nat (Pos.size_nat p))
      by (apply Z.pow_le_mono_l; lia).
    rewrite Nat2Z.inj_succ, Z.pow_succ_r by lia.
    change (Z.of_N (N.pos p)) with (Z.pos p). lia.
  - lia.
  - rewrite E. simpl. reflexivity.
Qed.

Lemma utoa_head p :
  exists c rest, fmt.utoa (N.pos p) = String c rest /\ regexp.isDigit c = true.
Proof.
  assert (E := digitsValue_utoa (N.pos p)).
  destruct (fmt.utoa (N.pos p)) as [| c rest]; [discriminate E |].
  exists c, rest. split; [reflexivity |].
  cbn [common.digitsValue] in E. destruct (regexp.isDigit c); [reflexivity | discriminate E].
Qed.

(** The decimal digits fmt prints are read back as the number. *)
Lemma Atoi_itoa z : common.Atoi (fmt.itoa z) = Some z.
Proof.
  destruct z as [| p | p]; [reflexivity | |]; cbn [fmt.itoa].
  - assert (E := digitsValue_utoa (N.pos p)).
    destruct (utoa_head p) as (c & rest & Es & Hc). rewrite Es in *.
    cbn [common.Atoi].
    destruct (Ascii.eqb_spec c "-") as [-> | _]; [discriminate Hc |].
    destruct (Ascii.eqb_spec c "+") as [-> | _]; [discriminate Hc |].
    exact E.
  - cbn [common.Atoi]. rewrite Ascii.eqb_refl.
    assert (E := digitsValue_utoa (N.pos p)).
    destruct (utoa_head p) as (c & rest & Es & Hc). rewrite Es in *.
    rewrite E. reflexivity.
Qed.

Lemma itoa_injective z1 z2 : fmt.itoa z1 = fmt.itoa z2 -> z1 = z2.
Proof.
  intros E. apply (f_equal common.Atoi) in E. rewrite !Atoi_itoa in E. congruence.
Qed.

Lemma append_inj_r (a b c : string) : a +:+ c = b +:+ c -> a = b.
Proof.
  intros E. apply (f_equal list_ascii_of_string) in E. rewrite !list_of_append in E.
  apply app_inv_tail in E.
  rewrite <- (string_of_list_ascii_of_string a), <- (string_of_list_ascii_of_string b).
  now rewrite E.
Qed.

Lemma append_inj_l (a b c : string) : a +:+ b = a +:+ c -> b = c.
Proof. induction a as [| x a IH]; simpl; intros E; [exact E | injection E as E; auto]. Qed.

End printing.

(** X15. The numbers the dialect prints tell the numbers it was given:
    two limits that are not negative and give the same fragment are the
    same number, and two string fields with the same additional modifiers
    and sizes between 1 and 65531 that get the same column type have the
    same size. *)
Theorem printed_numbers_are_distinct :
  forall (H : Host),
    (forall limit1 limit2 n1 n2,
        parseInt limit1 = inl n1 -> parseInt limit2 = inl n2 -> 0 <= n1 -> 0 <= n2 ->
        fst (LimitAndOffsetSQL (Some limit1) None)
        = fst (LimitAndOffsetSQL (Some limit2) None) ->
        n1 = n2)
    /\ (forall field1 field2 value1 value2 size1 size2 additionalType,
          ParseFieldStructForDialect field1 = (value1, "", size1, additionalType) ->
          ParseFieldStructForDialect field2 = (value2, "", size2, additionalType) ->
          reflect.Value_Kind value1 = reflect.String ->
          reflect.Value_Kind value2 = reflect.String ->
          0 < size1 < 65532 -> 0 < size2 < 65532 ->
          fst (DataTypeOf field1) = fst (DataTypeOf field2) ->
          size1 = size2).
Proof.
  intros H. split.
  - intros limit1 limit2 n1 n2 E1 E2 H1 H2 E.
    rewrite (LimitAndOffsetSQL_limit_only _ _ E1 H1),
      (LimitAndOffsetSQL_limit_only _ _ E2 H2) in E.
    cbn [fst] in E. apply append_inj_l in E. now apply itoa_injective.
  - intros field1 field2 value1 value2 size1 size2 additionalType
      E1 E2 K1 K2 R1 R2 E.
    assert (T1 := inferType_string value1 size1 (keepAutoIncrementOnKey field1) K1).
    assert (T2 := inferType_string value2 size2 (keepAutoIncrementOnKey field2) K2).
    destruct (Z.ltb_spec 0 size1); [| lia]. destruct (Z.ltb_spec size1 65532); [| lia].
    destruct (Z.ltb_spec 0 size2); [| lia]. destruct (Z.ltb_spec size2 65532); [| lia].
    cbn [andb] in T1, T2.
    rewrite (DataTypeOf_typed _ _ _ _ _ _ E1 T1), (DataTypeOf_typed _ _ _ _ _ _ E2 T2) in E.
    injection E as E. unfold withModifiers in E.
    apply itoa_injective. apply (append_inj_r _ _ ")").
    apply (append_inj_l "varchar(").
    destruct (String.eqb (strings.TrimSpace additionalType) ""); [exact E |].
    apply (append_inj_r _ _ (" " +:+ additionalType)). exact E.
Qed.

Lemma printed_numbers_are_distinct_witness :
  fst (@LimitAndOffsetSQL commonDialect (Some (AnyInt 10)) None)
  <> fst (@LimitAndOffsetSQL commonDialect (Some (AnyString "100")) None).
Proof.
  intros E.
  assert (E' := proj1 (printed_numbers_are_distinct commonDialect)
                  (AnyInt 10) (AnyString "100") 10 100 eq_refl eq_refl
                  ltac:(lia) ltac:(lia) E).
  discriminate E'.
Defined.

(** ** Blank modifiers *)

Section blanks.

Ltac compare_all :=
  repeat match goal with
         | |- context [?a <? ?b] => destruct (Z.ltb_spec a b); try lia
         | |- context [?a =? ?b] => destruct (Z.eqb_spec a b); try lia
         end.

Lemma TrimSpace_blank s : allOf isAsciiSpace s = true -> strings.TrimSpace s = "".
Proof.
  intros Hs. unfold strings.TrimSpace.
  assert (E : strings.dropWhile strings.isSpaceChunk (utf8.chunks s) = []).
  { unfold allOf in Hs. induction s as [| c s IH]; [reflexivity |].
    simpl in Hs. apply andb_true_iff in Hs. destruct Hs as [Hc Hs].
    unfold isAsciiSpace, utf8.within in Hc.
    rewrite chunks_ascii by lia. cbn [strings.dropWhile].
    replace (strings.isSpaceChunk (utf8.byte c, utf8.one c)) with true.
    - now apply IH.
    - unfold strings.isSpaceChunk, unicode.IsSpace, utf8.within. cbn [fst]. lia. }
  rewrite E. reflexivity.
Qed.

Lemma first_invalid_inv b : utf8.first b = utf8.invalid -> 128 <= b.
Proof. unfold utf8.first. compare_all; intros E; (lia || discriminate E). Qed.

Lemma first_multi_lead b size lo hi :
  utf8.first b = utf8.multi size lo hi -> 128 <= b /\ 128 <= lo.
Proof.
  unfold utf8.first.
  compare_all; intros E; try discriminate E; injection E as <- <- <-; lia.
Qed.

Lemma high_not_visible c : 128 <= utf8.byte c -> isVisible c = false.
Proof. intros Hc. unfold isVisible, utf8.within. lia. Qed.

Lemma visible_after c s :
  128 <= utf8.byte c -> anyOf isVisible (String c s) = true -> anyOf isVisible s = true.
Proof.
  intros Hc Hv. unfold anyOf in *. simpl in Hv.
  now rewrite (high_not_visible c Hc) in Hv.
Qed.

Lemma chunks_visible n :
  forall s, (String.length s <= n)%nat -> anyOf isVisible s = true ->
            Exists solid (utf8.chunks s).
Proof.
  induction n as [| n IH]; intros s Hl Hv.
  - destruct s; [discriminate Hv | simpl in Hl; lia].
  - destruct s as [| c0 s1]; [discriminate Hv |]. simpl in Hl. cbn [utf8.chunks].
    assert (Hbad : 128 <= utf8.byte c0 ->
                   Exists solid ((utf8.RuneError, utf8.one c0) :: utf8.chunks s1)).
    { intros H0. apply Exists_cons_tl. apply IH; [lia |]. now apply (visible_after c0). }
    destruct (utf8.first (utf8.byte c0)) as [| | size lo hi] eqn:Hf.
    + apply first_ascii_inv in Hf.
      destruct (isVisible c0) eqn:Hc0.
      * apply Exists_cons_hd. split; [| discriminate]. cbn [fst].
        unfold isVisible, utf8.within in Hc0.
        unfold unicode.IsSpace, utf8.within. lia.
      * apply Exists_cons_tl. apply IH; [lia |].
        unfold anyOf in *. simpl in Hv. now rewrite Hc0 in Hv.
    + apply Hbad. now apply first_invalid_inv.
    + destruct (first_multi_lead _ _ _ _ Hf) as [H0 Hlo].
      assert (Hv1 := visible_after _ _ H0 Hv).
      destruct s1 as [| c1 s2]; [now apply Hbad |].
      destruct (utf8.within lo hi (utf8.byte c1)) eqn:Hw; cbn [negb]; [| now apply Hbad].
      apply within_inv in Hw. simpl in Hl.
      assert (Hv2 := visible_after c1 s2 ltac:(lia) Hv1).
      destruct (size <=? 2)%nat; [apply Exists_cons_tl, IH; [lia | exact Hv2] |].
      destruct s2 as [| c2 s3]; [now apply Hbad |].
      destruct (utf8.cont (utf8.byte c2)) eqn:Hc2; cbn [negb]; [| now apply Hbad].
      apply within_inv in Hc2. simpl in Hl.
      assert (Hv3 := visible_after c2 s3 ltac:(lia) Hv2).
      destruct (size <=? 3)%nat; [apply Exists_cons_tl, IH; [lia | exact Hv3] |].
      destruct s3 as [| c3 s4]; [now apply Hbad |].
      destruct (utf8.cont (utf8.byte c3)) eqn:Hc3; cbn [negb]; [| now apply Hbad].
      apply within_inv in Hc3. simpl in Hl.
      apply Exists_cons_tl, IH; [lia |]. apply (visible_after c3); [lia | exact Hv3].
Qed.

Lemma dropWhile_keeps (ch : Z * string) l :
  In ch l -> strings.isSpaceChunk ch = false ->
  In ch (strings.dropWhile strings.isSpaceChunk l).
Proof.
  intros Hin Hch. induction l as [| x l IH]; [contradiction |].
  cbn [strings.dropWhile]. destruct (strings.isSpaceChunk x) eqn:Hx; [| exact Hin].
  destruct Hin as [-> | Hin]; [congruence | now apply IH].
Qed.

Lemma join_nonempty (ch : Z * string) l : In ch l -> snd ch <> "" -> strings.join l <> "".
Proof.
  intros Hin Hne. induction l as [| x l IH]; [contradiction |].
  cbn [strings.join]. destruct Hin as [-> | Hin].
  - destruct (snd ch); [congruence | discriminate].
  - destruct (snd x); [now apply IH | discriminate].
Qed.

Lemma TrimSpace_visible s : anyOf isVisible s = true -> strings.TrimSpace s <> "".
Proof.
  intros Hv.
  assert (Hex := chunks_visible (String.length s) s (le_n _) Hv).
  apply List.Exists_exists in Hex. destruct Hex as (ch & Hin & Hsp & Hne).
  unfold strings.TrimSpace. apply (join_nonempty ch); [| exact Hne].
  apply in_rev. rewrite rev_involutive.
  apply dropWhile_keeps; [| exact Hsp]. apply -> in_rev.
  now apply dropWhile_keeps.
Qed.

End blanks.

(** X16. The additional modifiers are tested trimmed and appended
    untrimmed: when they consist of ASCII white space only (or are empty),
    DataTypeOf returns the bare type, explicit or inferred; when they hold
    a printable character, it returns the type, one space, and the
    modifiers exactly as the field-struct parsing gave them. *)
Theorem DataTypeOf_modifiers :
  forall (H : Host) (field : StructField) dataValue sqlType size additionalType s,
    ParseFieldStructForDialect field = (dataValue, sqlType, size, additionalType) ->
    fst (DataTypeOf field) = Returned s ->
    let type :=
      if String.eqb sqlType "" then
        fst (inferType dataValue size (keepAutoIncrementOnKey field))
      else sqlType in
    (allOf isAsciiSpace additionalType = true -> s = type)
    /\ (anyOf isVisible additionalType = true -> s = type +:+ " " +:+ additionalType).
Proof.
  intros H field dataValue sqlType size additionalType s E R type.
  assert (Rt : s = withModifiers type additionalType).
  { subst type. destruct (String.eqb_spec sqlType "") as [-> | Hne].
    - rewrite (DataTypeOf_inferred _ _ _ _ E) in R. cbn [fst] in R.
      destruct (String.eqb (fst (inferType dataValue size
                                   (keepAutoIncrementOnKey field))) "");
        [discriminate R | now injection R].
    - rewrite (DataTypeOf_explicit _ _ _ _ _ E Hne) in R. now injection R. }
  rewrite Rt. unfold withModifiers. split; intros Hm.
  - now rewrite (TrimSpace_blank _ Hm).
  - assert (Hne := TrimSpace_visible _ Hm). apply String.eqb_neq in Hne.
    now rewrite Hne.
Qed.

Lemma DataTypeOf_modifiers_witness :
  "varchar(100) NOT NULL" = "varchar(100)" +:+ " " +:+ "NOT NULL".
Proof.
  apply (DataTypeOf_modifiers commonDialect sample.RequiredTitle _ "" 100 "NOT NULL"
           "varchar(100) NOT NULL" eq_refl eq_refl).
  reflexivity.
Defined.
